(** * AutoSys Pro: alert cooldown, alert priority, failure prediction and
      backup orchestration

    A shallow embedding of the decision logic of [modulo_15/autosys-pro/src]:

    - [alertas/priorizacao.py]  ([PriorizadorAlertas], [GerenciadorCooldown])
    - [alertas/canais.py]       ([GerenciadorAlertas])
    - [monitor/preditor.py]     ([PreditorFalhas.prever_falha]) and the
      prediction block of [main.py]'s monitoring loop
    - [backup/inteligencia.py]  ([OtimizadorBackup.sugerir_estrategia])
    - [backup/gerenciador.py]   ([GerenciadorBackup])

    Conventions of the embedding.

    - A [datetime] is its count of microseconds, a [Z]; a [timedelta] is a
      difference of two of them.  The text that [isoformat()] stores in the
      SQLite tables orders as the instants do, so a row keeps the instant.
    - Python numbers ([int] and [float]) are exact rationals [Q]; binary64
      rounding is not modelled.
    - A Python [dict] read with [get] is a record of optional fields, or a
      [gmap] when it is keyed by run-time strings.
    - A table of the SQLite database is the list of its rows, in insertion
      order.
    - Code that raises does so through [resultado]; effects that happened
      before the exception stay in the state.
    - A global name that a module evaluates without binding it raises
      [NameError] at that point, as Python does: [config] in
      [priorizacao.py], [os], [defaultdict] and [socket] in [canais.py],
      [probabilidad] in [preditor.py].  The [os.walk] of [gerenciador.py]
      is inside the copy step, whose outcome is left arbitrary. *)

From Stdlib Require Import Ascii String ZArith QArith Qminmax Qround Qpower Lqa Lia.
From stdpp Require Import gmap strings list.

Local Open Scope Z_scope.

(** ** Python values shared by the modules *)

Module Py.

(** [str.lower()].  Only the letters A to Z change; every table of the
    program that is read through [lower()] has plain lower-case ASCII
    keys, and no other character lower-cases to one of their letters. *)
Definition lower_ascii (c : ascii) : ascii :=
  let n := nat_of_ascii c in
  if (65 <=? n)%nat && (n <=? 90)%nat then ascii_of_nat (n + 32) else c.

Fixpoint lower (s : string) : string :=
  match s with
  | EmptyString => EmptyString
  | String c r => String (lower_ascii c) (lower r)
  end.

(** [d.get(k, dflt)] on a dict literal. *)
Fixpoint dict_get {V : Type} (d : list (string * V)) (k : string) (dflt : V) : V :=
  match d with
  | [] => dflt
  | (k', v) :: r => if String.eqb k k' then v else dict_get r k dflt
  end.

(** [td.total_seconds()] of a [timedelta] of [d] microseconds. *)
Definition total_seconds (d : Z) : Q := d # 1000000.

(** [timedelta(seconds=s)] and [timedelta(days=d)], in microseconds. *)
Definition segundos (s : Z) : Z := s * 1000000.
Definition dias (d : Z) : Z := d * 86400 * 1000000.

(** [int(x)]: truncation towards zero. *)
Definition int (x : Q) : Z := Z.quot (Qnum x) (Zpos (Qden x)).

(** [x < y] and [x >= y] on numbers, as booleans. *)
Definition ltb (x y : Q) : bool := if Qlt_le_dec x y then true else false.
Definition geb (x y : Q) : bool := negb (ltb x y).
Definition gtb (x y : Q) : bool := ltb y x.

(** Exceptions: [BackupError] of [exceptions.py], and every other class. *)
Inductive excecao : Type :=
| BackupError (msg : string)
| Outra (classe msg : string).

(** [str(e)]. *)
Definition str (e : excecao) : string :=
  match e with
  | BackupError m => m
  | Outra _ m => m
  end.

Inductive resultado (A : Type) : Type :=
| Ok (a : A)
| Raise (e : excecao).
Arguments Ok {A} a.
Arguments Raise {A} e.

(** The exception of a global name that is evaluated where neither the
    module nor the builtins bind it. *)
Definition NameError (nome : string) : excecao :=
  Outra "NameError" ("name '" +:+ nome +:+ "' is not defined").

(** Evaluating the global name [nome], which is no builtin, in a module
    whose top level binds the names [globais]. *)
Definition nome_global (globais : list string) (nome : string) : resultado unit :=
  if bool_decide (nome ∈ globais) then Ok tt else Raise (NameError nome).

End Py.

(** ** [alertas/priorizacao.py] and [alertas/canais.py]: the alert dict *)

(** The keys of an alert that the scoring and cooldown code reads.  A
    timestamp that [datetime.fromisoformat] rejects is [TsInvalido]. *)
Inductive carimbo : Type :=
| TsValido (t : Z)
| TsInvalido.

Record Alerta : Type := {
  a_id : option string;
  a_tipo : option string;
  a_severidade : option string;
  a_mensagem : option string;
  a_timestamp : option carimbo;
  a_valor : option Q;
  a_threshold : option Q
}.

(** [alerta.get("tipo", "desconhecido")] and [alerta.get("severidade", "media")]. *)
Definition get_tipo (alerta : Alerta) : string := default "desconhecido" (a_tipo alerta).
Definition get_severidade (alerta : Alerta) : string := default "media" (a_severidade alerta).

(** ** [GerenciadorCooldown] *)

Module Cooldown.

(** One entry of [self.cooldowns]; [defaultdict(dict)] makes an empty
    dict, [VazioInfo], for a key that is read before it is written. *)
Inductive info : Type :=
| VazioInfo
| Envio (timestamp : Z) (sucesso : bool) (severidade : string).

Record estado : Type := {
  cooldowns : gmap string info;
  adaptive_cooldowns : gmap string Q
}.

(** [__init__] *)
Definition novo : estado := {| cooldowns := ∅; adaptive_cooldowns := ∅ |}.

Definition _get_base_cooldown (severidade : string) : Z :=
  let cooldowns :=
    [("critica", 60); ("alta", 300); ("media", 1800); ("baixa", 3600);
     ("info", 43200)] in
  Py.dict_get cooldowns (Py.lower severidade) 1800.

(** [self.cooldowns[tipo]] on a [defaultdict(dict)]: a missing key is
    created with an empty dict. *)
Definition cooldowns_getitem (tipo : string) (c : gmap string info)
  : info * gmap string info :=
  match c !! tipo with
  | Some i => (i, c)
  | None => (VazioInfo, <[tipo := VazioInfo]> c)
  end.

(** The [cooldown] that [should_alert] works out: the adaptive window
    of the type when it has one, else the base window of the severity. *)
Definition cooldown_vigente (g : estado) (alerta : Alerta) : Q :=
  let tipo := get_tipo alerta in
  let severidade := get_severidade alerta in
  let cooldown_base := _get_base_cooldown severidade in
  match adaptive_cooldowns g !! tipo with
  | Some c => c
  | None => inject_Z cooldown_base
  end.

Definition should_alert (g : estado) (alerta : Alerta) (agora : Z)
  : (bool * Z) * estado :=
  let tipo := get_tipo alerta in
  let cooldown := cooldown_vigente g alerta in
  match cooldowns g !! tipo with
  | Some _ =>
      let '(entrada, cds) := cooldowns_getitem tipo (cooldowns g) in
      let g' := {| cooldowns := cds; adaptive_cooldowns := adaptive_cooldowns g |} in
      match entrada with
      | Envio ultimo_envio _ _ =>
          let tempo_passado := Py.total_seconds (agora - ultimo_envio) in
          if Py.ltb tempo_passado cooldown
          then ((false, Py.int (cooldown - tempo_passado)), g')
          else ((true, 0), g')
      | VazioInfo => ((true, 0), g')
      end
  | None => ((true, 0), g)
  end.

Definition registrar_envio (g : estado) (alerta : Alerta) (sucesso : bool)
    (agora : Z) : estado :=
  let tipo := get_tipo alerta in
  let cds := <[tipo := Envio agora sucesso (get_severidade alerta)]> (cooldowns g) in
  let base := inject_Z (_get_base_cooldown (get_severidade alerta)) in
  let ad :=
    match adaptive_cooldowns g !! tipo with
    | None => <[tipo := base]> (adaptive_cooldowns g)
    | Some _ => adaptive_cooldowns g
    end in
  (* [ad] holds the key by now, so the default is never taken *)
  let atual := default base (ad !! tipo) in
  let ad' :=
    if negb sucesso
    then <[tipo := (atual * (3 # 2))%Q]> ad
    else <[tipo := Qmax base (atual * (9 # 10))%Q]> ad in
  {| cooldowns := cds; adaptive_cooldowns := ad' |}.

(** [n] calls in a row with the same alert and outcome, at the given
    instants. *)
Definition registrar_varios (g : estado) (alerta : Alerta) (sucesso : bool)
    (instantes : list Z) : estado :=
  foldl (fun g t => registrar_envio g alerta sucesso t) g instantes.

(** A run of calls, each with its alert, outcome and instant. *)
Definition registrar_seq (g : estado) (chamadas : list (Alerta * bool * Z)) : estado :=
  foldl (fun g '(alerta, sucesso, t) => registrar_envio g alerta sucesso t) g chamadas.

(** The adaptive window of [tipo], when the type has one. *)
Definition janela (g : estado) (tipo : string) : option Q :=
  adaptive_cooldowns g !! tipo.

End Cooldown.

(** ** [PriorizadorAlertas] *)

Module Priorizador.

(** The names that the top level of [priorizacao.py] binds: its imports
    and its two classes. *)
Definition globais : list string :=
  ["np"; "Dict"; "Any"; "List"; "Tuple"; "defaultdict"; "datetime"; "timedelta";
   "sqlite3"; "PriorizadorAlertas"; "GerenciadorCooldown"].

Section ComBanco.

(** What [SELECT COUNT( * ) FROM alerts WHERE tipo = ? AND timestamp >
    datetime('now', '-24 hours')] answers for a type. *)
Variable contagem_24h : string -> Z.

(** The first statement is [sqlite3.connect(config.DB_PATH)]: the argument
    is evaluated before the connection is opened. *)
Definition _calcular_frequencia (tipo : string) : Py.resultado Z :=
  match Py.nome_global globais "config" with
  | Py.Raise e => Py.Raise e
  | Py.Ok _ =>
      let total := contagem_24h tipo in
      if 0 <? total then
        if 50 <? total then Py.Ok 20
        else if 20 <? total then Py.Ok 15
        else if 10 <? total then Py.Ok 10
        else if 5 <? total then Py.Ok 5
        else if 2 <? total then Py.Ok 2
        else Py.Ok 0
      else Py.Ok 0
  end.

Definition _calcular_impacto (alerta : Alerta) : Z :=
  let tipos_impacto :=
    [("cpu_alta", 15); ("memoria_alta", 15); ("disco_alto", 20);
     ("predicao_falha", 25); ("backup_erro", 10); ("servico_parado", 25)] in
  let impacto := 0 + Py.dict_get tipos_impacto (default "" (a_tipo alerta)) 5 in
  let impacto :=
    match a_valor alerta, a_threshold alerta with
    | Some valor, Some threshold =>
        if Py.gtb valor (threshold * (3 # 2))%Q then impacto + 10
        else if Py.gtb valor (threshold * (6 # 5))%Q then impacto + 5
        else impacto
    | _, _ => impacto
    end in
  Z.min 25 impacto.

(** [t_padrao] is the clock reading made for the default of
    [alerta.get("timestamp", ...)], [agora] the one made after it.  The
    bare [except] turns every failure into the final [return 0]. *)
Definition _calcular_recencia (alerta : Alerta) (t_padrao agora : Z) : Z :=
  match default (TsValido t_padrao) (a_timestamp alerta) with
  | TsValido alerta_time =>
      let diferenca_minutos := (Py.total_seconds (agora - alerta_time) / 60)%Q in
      if Py.ltb diferenca_minutos 5 then 15
      else if Py.ltb diferenca_minutos 15 then 10
      else if Py.ltb diferenca_minutos 30 then 5
      else if Py.ltb diferenca_minutos 60 then 2
      else 0
  | TsInvalido => 0
  end.

Definition calcular_prioridade (alerta : Alerta) (t_padrao agora : Z)
  : Py.resultado Z :=
  let score := 0 in
  let severidade_scores :=
    [("critica", 40); ("alta", 30); ("media", 20); ("baixa", 10); ("info", 5)] in
  let score :=
    score + Py.dict_get severidade_scores (Py.lower (get_severidade alerta)) 20 in
  match _calcular_frequencia (get_tipo alerta) with
  | Py.Raise e => Py.Raise e
  | Py.Ok frequencia =>
      let score := score + Z.min 20 (frequencia * 2) in
      let score := score + _calcular_impacto alerta in
      let score := score + _calcular_recencia alerta t_padrao agora in
      Py.Ok (Z.min 100 score)
  end.

End ComBanco.
End Priorizador.

(** ** [GerenciadorAlertas] *)

Module Canais.

(** One element of [resultados]. *)
Record entrega : Type := {
  e_canal : string;
  e_sucesso : bool;
  e_erro : option string
}.

(** A row of the [alerts] table. *)
Record linha_alerta : Type := {
  l_id : option string;
  l_timestamp : option carimbo;
  l_tipo : option string;
  l_severidade : option string;
  l_mensagem : option string;
  l_resultados : list entrega
}.

(** The dispatcher's attributes, the [alerts] table it writes, and
    [tentativas], the record of every [canal.enviar] call made. *)
Record estado : Type := {
  historico_alertas : list (Alerta * list entrega * Z);
  cooldown_cache : gmap string Z;
  alert_count : gmap string Z;
  alerts : list linha_alerta;
  tentativas : list (string * Alerta)
}.

(** The names that the top level of [canais.py] binds: its imports and
    its four classes. *)
Definition globais : list string :=
  ["aiosmtplib"; "aiohttp"; "asyncio"; "MIMEText"; "MIMEMultipart"; "Dict"; "Any";
   "List"; "Optional"; "datetime"; "timedelta"; "json"; "sqlite3"; "config";
   "logger"; "GerenciadorAlertas"; "EmailAlert"; "TelegramAlert"; "SlackAlert"].

(** [__init__].  The dict of channels is built first, and [EmailAlert()]
    reads [os.getenv] in its own [__init__], after [config.EMAIL_ENABLED];
    the last statement is [defaultdict(int)]. *)
Definition novo : Py.resultado estado :=
  match Py.nome_global globais "os" with
  | Py.Raise e => Py.Raise e
  | Py.Ok _ =>
      match Py.nome_global globais "defaultdict" with
      | Py.Raise e => Py.Raise e
      | Py.Ok _ =>
          Py.Ok {| historico_alertas := []; cooldown_cache := ∅; alert_count := ∅;
                   alerts := []; tentativas := [] |}
      end
  end.

(** The readings of [datetime.now()] that one call of [enviar] makes: in
    [_enriquecer_alerta], in [_em_cooldown], for [timestamp_envio] after
    the deliveries, and in [_atualizar_cooldown]. *)
Record relogio : Type := {
  t_enriquecer : Z;
  t_cooldown : Z;
  t_historico : Z;
  t_atualizar : Z
}.


Definition _get_cooldown_periodo (severidade : string) : Z :=
  let cooldowns :=
    [("critica", 60); ("alta", 300); ("media", 1800); ("baixa", 3600);
     ("info", 86400)] in
  Py.dict_get cooldowns (Py.lower severidade) 1800.



Section ComCanais.

(** The three channel objects: [esta_ativo()] and the outcome of
    [enviar(alerta)], the [sucesso] entry of the dict it returns ([False]
    when absent) or the exception it raises. *)
Variable esta_ativo : string -> bool.
Variable canal_enviar : string -> Alerta -> Py.resultado bool.








End ComCanais.
End Canais.

(** ** [config.py] *)

(** The options of [Config] that the modelled code reads. *)
Record Config : Type := {
  BACKUP_DIR : string;
  BACKUP_RETENTION_DAYS : Z;
  ENABLE_ML : bool;
  PREDICTION_THRESHOLD : Q
}.

(** The defaults of the dataclass. *)
Definition config_padrao : Config :=
  {| BACKUP_DIR := "data/backups";
     BACKUP_RETENTION_DAYS := 30;
     ENABLE_ML := true;
     PREDICTION_THRESHOLD := 7 # 10 |}.

(** ** [PreditorFalhas.prever_falha] and its caller in [main.py] *)

Module Preditor.

(** The entries of the metrics snapshot that the feature row reads. *)
Record metricas : Type := {
  cpu_percent : option Q;
  memory_percent : option Q;
  disk_total_percent : option Q;
  load_avg : option (list Q);
  processes_total : option Q;
  connections_count : option Q
}.

(** The dict that [prever_falha] returns. *)
Record predicao : Type := {
  probabilidade : Q;
  nivel_risco : string;
  mensagem : string
}.

Record estado : Type := { is_trained : bool }.

Section ComModelo.

(** The feature row, [scaler.transform] and [modelo.predict_proba(...)[0, 1]]
    of the trained branch: a probability, or the exception raised on the
    way. *)
Variable predict_proba : metricas -> Z -> Py.resultado Q.

(** The [try] body of the trained branch.  The dict it would return
    names [probabilidad], which is bound nowhere, so building it raises
    [NameError]. *)
Definition corpo_treinado (metrics : metricas) (agora : Z) : Py.resultado predicao :=
  match predict_proba metrics agora with
  | Py.Raise e => Py.Raise e
  | Py.Ok probabilidade =>
      let nivel :=
        if Py.geb probabilidade (8 # 10) then "crítico"
        else if Py.geb probabilidade (6 # 10) then "alto"
        else if Py.geb probabilidade (4 # 10) then "médio"
        else if Py.geb probabilidade (2 # 10) then "baixo"
        else "mínimo" in
      Py.Raise (Py.Outra "NameError" "name 'probabilidad' is not defined")
  end.

Definition prever_falha (p : estado) (metrics : metricas) (agora : Z)
  : Py.resultado predicao :=
  if negb (is_trained p) then
    Py.Ok {| probabilidade := 0;
             nivel_risco := "desconhecido";
             mensagem := "Modelo não treinado" |}
  else
    match corpo_treinado metrics agora with
    | Py.Ok d => Py.Ok d
    | Py.Raise e =>
        Py.Ok {| probabilidade := 0;
                 nivel_risco := "erro";
                 mensagem := "Erro na predição: " +:+ Py.str e |}
    end.

(** [f"{p:.1%}"] *)
Variable formatar_percentual : Q -> string.

(** [_monitoring_loop], the block under [# Predição de falhas]: the list
    [alertas] after it.  The statements of the iteration before and after
    the block are not part of this definition. *)
Definition bloco_predicao (cfg : Config) (p : estado) (metrics : metricas)
    (alertas : list Alerta) (agora : Z) : Py.resultado (list Alerta) :=
  if ENABLE_ML cfg then
    match prever_falha p metrics agora with
    | Py.Raise e => Py.Raise e
    | Py.Ok predicao =>
        if Py.gtb (probabilidade predicao) (PREDICTION_THRESHOLD cfg) then
          let alerta :=
            {| a_id := None;
               a_tipo := Some "predicao_falha";
               a_severidade := Some "alta";
               a_mensagem :=
                 Some ("⚠️ Probabilidade de falha: "
                       +:+ formatar_percentual (probabilidade predicao));
               a_timestamp := Some (TsValido agora);
               a_valor := None;
               a_threshold := None |} in
          Py.Ok (alertas ++ [alerta])
        else Py.Ok alertas
    end
  else Py.Ok alertas.

End ComModelo.
End Preditor.

(** ** The [backups] table *)

Module Tabela.

(** A row of [backups]: [_registrar_backup] fills the columns from
    [backup_info.get(...)], so every column but the two that both callers
    set can be NULL. *)
Record linha : Type := {
  b_id : string;
  b_timestamp : Z;
  b_path : option string;
  b_tamanho_mb : option Q;
  b_duracao : option Q;
  b_tipo : option string;
  b_targets : list string;
  b_sucesso : bool;
  b_erro : option string
}.

(** [INSERT OR REPLACE INTO backups], [id] being the primary key. *)
Definition insert_or_replace (l : linha) (t : list linha) : list linha :=
  filter (fun r => b_id r ≠ b_id l) t ++ [l].

(** [SELECT ... WHERE sucesso = 1 ORDER BY timestamp DESC LIMIT 1]: one
    pass over the rows that keeps the successful row of greatest timestamp
    met so far. *)
Definition mais_recente (melhor : option linha) (r : linha) : option linha :=
  if b_sucesso r then
    match melhor with
    | Some m => if b_timestamp m <? b_timestamp r then Some r else Some m
    | None => Some r
    end
  else melhor.

Definition ultimo_sucesso (t : list linha) : option linha :=
  foldl mais_recente None t.

(** The rows with a given id. *)
Definition com_id (id : string) (t : list linha) : list linha :=
  filter (fun r => b_id r = id) t.

End Tabela.

(** ** [OtimizadorBackup.sugerir_estrategia] *)

Module Inteligencia.

(** The strategy dict; the fallback dict of [main.py] has only [tipo]
    and [prioridade]. *)
Record estrategia : Type := {
  tipo : option string;
  compressao : option bool;
  prioridade : option string;
  tamanho_estimado_mb : option Q;
  horario_sugerido : option string;
  dias_desde_ultimo_backup : option Q;
  confianca : option Q
}.

Record estado : Type := { is_trained : bool }.

(** [round(x)] to the nearest integer, ties to even, and [round(x, nd)]. *)
Definition round_half_even (x : Q) : Z :=
  let f := Qfloor x in
  let r := (x - inject_Z f)%Q in
  if Py.ltb r (1 # 2) then f
  else if Py.ltb (1 # 2) r then f + 1
  else if Z.even f then f else f + 1.

Definition round_nd (x : Q) (nd : nat) : Q :=
  (inject_Z (round_half_even (x * inject_Z (10 ^ Z.of_nat nd))) /
   inject_Z (10 ^ Z.of_nat nd))%Q.

(** [StandardScaler().fit_transform(X)] on a single row: each column is
    centred on its own only value. *)
Definition fit_transform_uma_linha (X : list Q) : list Q := map (fun _ => 0%Q) X.

(** [f"{hora_ideal:02d}:00"] for an hour of the day. *)
Definition formatar_hora (h : Z) : string :=
  String (ascii_of_nat (48 + Z.to_nat (h / 10)))
    (String (ascii_of_nat (48 + Z.to_nat (h mod 10))) ":00").

(** [cluster_tipo.get(cluster, "incremental")] *)
Definition cluster_tipo (cluster : Z) : string :=
  if cluster =? 0 then "incremental"
  else if cluster =? 1 then "completo"
  else if cluster =? 2 then "diferencial"
  else "incremental".

Section ComModelos.

(** [self.modelo_cluster.predict(X_scaled)[0]], and
    [self.modelo_predicao.predict(self.scaler.transform(X))[0]]. *)
Variable cluster_predict : list Q -> Z.
Variable tamanho_predict : list Q -> Q.

(** The hour that the [GROUP BY hora ORDER BY duracao_media] query of
    [_sugerir_horario_ideal] answers, if it has a row. *)
Variable hora_menor_duracao : list Tabela.linha -> option Z.

Definition _estimar_tamanho_backup (o : estado) (tipo : string) (hora dia_semana : Z)
    (dias_desde_ultimo : Q) : Q :=
  if negb (is_trained o) then
    let base := if String.eqb tipo "completo" then 100%Q else 20%Q in
    (base * (1 + dias_desde_ultimo * (1 # 10)))%Q
  else
    let tipo_map := [("completo", 0%Q); ("incremental", 1%Q); ("diferencial", 2%Q)] in
    let tipo_encoded := Py.dict_get tipo_map tipo 1%Q in
    let X := [inject_Z hora; inject_Z dia_semana; dias_desde_ultimo; tipo_encoded] in
    let tamanho := tamanho_predict X in
    Qmax tamanho 1.

Definition _sugerir_horario_ideal (backups : list Tabela.linha) : string :=
  match hora_menor_duracao backups with
  | Some hora_ideal => formatar_hora hora_ideal
  | None => "02:00"
  end.

(** [hora_atual] and [dia_semana] are [datetime.now().hour] and
    [.weekday()], [agora] the clock when the age of the last backup is
    taken. *)
Definition sugerir_estrategia (o : estado) (backups : list Tabela.linha)
    (hora_atual dia_semana agora : Z) : estrategia :=
  let ultimo := Tabela.ultimo_sucesso backups in
  let dias_desde_ultimo :=
    match ultimo with
    | Some u => (Py.total_seconds (agora - Tabela.b_timestamp u) / 86400)%Q
    | None => 1%Q
    end in
  let tipo :=
    if negb (is_trained o) then
      if Py.gtb dias_desde_ultimo 7 then "completo"
      else if dia_semana =? 0 then "completo"
      else "incremental"
    else
      let X := [inject_Z hora_atual; inject_Z dia_semana; 100%Q; 60%Q] in
      let X_scaled := fit_transform_uma_linha X in
      let cluster := cluster_predict X_scaled in
      let tipo := cluster_tipo cluster in
      if Py.gtb dias_desde_ultimo 7 then "completo" else tipo in
  let tamanho_estimado :=
    _estimar_tamanho_backup o tipo hora_atual dia_semana dias_desde_ultimo in
  let horario_ideal := _sugerir_horario_ideal backups in
  {| tipo := Some tipo;
     compressao := Some true;
     prioridade := Some (if String.eqb tipo "completo" then "alta" else "media");
     tamanho_estimado_mb := Some (round_nd tamanho_estimado 2);
     horario_sugerido := Some horario_ideal;
     dias_desde_ultimo_backup := Some (round_nd dias_desde_ultimo 1);
     confianca := Some (if is_trained o then 85 # 100 else 6 # 10) |}.

End ComModelos.
End Inteligencia.

(** ** [GerenciadorBackup] *)

Module Backup.
Import Tabela.

Inductive tipo_no : Type := Arquivo | Diretorio.

(** The two steps of a backup that write under [BACKUP_DIR]. *)
Inductive escrita : Type :=
| Copia (backup_path : string)
| Compactacao (compactado_path : string).

(** What the executor acts on: the [backups] table, the paths that exist,
    and [escritas], the record of the writing steps that were started. *)
Record mundo : Type := {
  backups : list linha;
  fs : gmap string tipo_no;
  escritas : list escrita
}.

(** The dict that [_executar_backup_sync] and [_compactar_backup] return. *)
Record resultado_copia : Type := {
  caminho_final : string;
  tamanho_mb : Q;
  arquivos : Z;
  taxa_compressao : option Q
}.

(** The dict that [executar_backup] returns. *)
Record retorno : Type := {
  r_id : string;
  r_sucesso : bool;
  r_tamanho_mb : Q;
  r_duracao : Q;
  r_caminho : string;
  r_arquivos : Z
}.

(** The readings of [datetime.now()] that one call of [executar_backup]
    makes, in program order; [t_falha] is the one of the [except] block. *)
Record relogio : Type := {
  t_id : Z;
  t_inicio : Z;
  t_fim : Z;
  t_registro : Z;
  t_limpeza : Z;
  t_falha : Z
}.

(** State and exceptions. *)
Definition M (A : Type) : Type := mundo -> Py.resultado A * mundo.

Definition ret {A} (a : A) : M A := fun w => (Py.Ok a, w).
Definition raise {A} (e : Py.excecao) : M A := fun w => (Py.Raise e, w).
Definition bind {A B} (m : M A) (k : A -> M B) : M B :=
  fun w =>
    match m w with
    | (Py.Ok a, w') => k a w'
    | (Py.Raise e, w') => (Py.Raise e, w')
    end.
(** [try: m  except Exception as e: h e] *)
Definition try_except {A} (m : M A) (h : Py.excecao -> M A) : M A :=
  fun w =>
    match m w with
    | (Py.Ok a, w') => (Py.Ok a, w')
    | (Py.Raise e, w') => h e w'
    end.

Notation "x <- m ;; k" := (bind m (fun x => k))
  (at level 100, m at next level, right associativity).
Notation "m ;;; k" := (bind m (fun _ => k))
  (at level 100, right associativity).

Definition com_backups (f : list linha -> list linha) : M unit :=
  fun w => (Py.Ok tt,
            {| backups := f (backups w); fs := fs w; escritas := escritas w |}).

Section ComAmbiente.

Variable cfg : Config.

(** [strftime("%Y%m%d_%H%M%S")] of an instant. *)
Variable strftime_id : Z -> string.

(** The file system as the executor meets it.  [determinar_targets] and
    [tamanho_bytes] stand for the scans of [_determinar_targets] and
    [_calcular_tamanho] (which read, and may raise); [livre_bytes] for
    [psutil.disk_usage(...).free]; [copiar] for the copy loop and the
    metadata file of [_executar_backup_sync] (files and bytes copied, or
    the exception, and the files left behind); [zipar] for the archive,
    the [rmtree] and the [stat] inside [_compactar_backup]'s [try]. *)
Variable determinar_targets :
  Inteligencia.estrategia -> list linha -> gmap string tipo_no ->
  Py.resultado (list string).
Variable tamanho_bytes : list string -> gmap string tipo_no -> Py.resultado Z.
Variable livre_bytes : gmap string tipo_no -> Z.
Variable copiar :
  string -> list string -> Inteligencia.estrategia -> gmap string tipo_no ->
  Py.resultado (Z * Z) * gmap string tipo_no.
Variable zipar :
  string -> string -> gmap string tipo_no -> Py.resultado Z * gmap string tipo_no.

Definition MB : Q := inject_Z (1024 * 1024).

Definition _determinar_targets (estrategia : Inteligencia.estrategia)
  : M (list string) :=
  fun w => (determinar_targets estrategia (backups w) (fs w), w).

Definition _calcular_tamanho (targets : list string) : M Q :=
  fun w =>
    match tamanho_bytes targets (fs w) with
    | Py.Ok total_bytes => (Py.Ok (inject_Z total_bytes / MB)%Q, w)
    | Py.Raise e => (Py.Raise e, w)
    end.

Definition _verificar_espaco (tamanho_estimado_mb : Q) : M bool :=
  fun w =>
    let espaco_livre_mb := (inject_Z (livre_bytes (fs w)) / MB)%Q in
    (Py.Ok (Py.geb espaco_livre_mb (tamanho_estimado_mb * 2)%Q), w).

Definition _executar_backup_sync (backup_path : string) (targets : list string)
    (estrategia : Inteligencia.estrategia) : M resultado_copia :=
  fun w =>
    let '(r, fs') := copiar backup_path targets estrategia (fs w) in
    let w' := {| backups := backups w; fs := fs';
                 escritas := escritas w ++ [Copia backup_path] |} in
    match r with
    | Py.Ok (total_arquivos, total_bytes) =>
        (Py.Ok {| caminho_final := backup_path;
                  tamanho_mb := (inject_Z total_bytes / MB)%Q;
                  arquivos := total_arquivos;
                  taxa_compressao := None |}, w')
    | Py.Raise e => (Py.Raise e, w')
    end.

(** The whole body is under [try]: any failure, the division by a zero
    [tamanho_mb] included, returns [resultado] as it came. *)
Definition _compactar_backup (backup_path : string) (resultado : resultado_copia)
  : M resultado_copia :=
  fun w =>
    let compactado_path := backup_path +:+ ".zip" in
    let '(r, fs') := zipar backup_path compactado_path (fs w) in
    let w' := {| backups := backups w; fs := fs';
                 escritas := escritas w ++ [Compactacao compactado_path] |} in
    match r with
    | Py.Ok bytes_compactado =>
        let tamanho_compactado := (inject_Z bytes_compactado / MB)%Q in
        if Qeq_bool (tamanho_mb resultado) 0 then (Py.Ok resultado, w')
        else
          let taxa :=
            ((1 - tamanho_compactado / tamanho_mb resultado) * 100)%Q in
          (Py.Ok {| caminho_final := compactado_path;
                    tamanho_mb := tamanho_compactado;
                    arquivos := arquivos resultado;
                    taxa_compressao := Some taxa |}, w')
    | Py.Raise _ => (Py.Ok resultado, w')
    end.

Definition _registrar_backup (backup_info : linha) : M unit :=
  com_backups (insert_or_replace backup_info).

(** [path.unlink()] behind [if path.exists()]: a directory cannot be
    unlinked. *)
Definition remover_artefato (path : option string) : M unit :=
  fun w =>
    match path with
    | None =>
        (Py.Raise (Py.Outra "TypeError" "expected str, bytes or os.PathLike object, not NoneType"), w)
    | Some p =>
        match fs w !! p with
        | None => (Py.Ok tt, w)
        | Some Arquivo =>
            (Py.Ok tt, {| backups := backups w; fs := delete p (fs w);
                          escritas := escritas w |})
        | Some Diretorio => (Py.Raise (Py.Outra "IsADirectoryError" p), w)
        end
    end.

(** An artefact path that the loop gets past: a path, and not that of a
    directory. *)
Definition removivel (f : gmap string tipo_no) (path : option string) : Prop :=
  ∃ p, path = Some p ∧ f !! p ≠ Some Diretorio.

(** The file system without the given paths. *)
Definition sem_artefatos (paths : list (option string)) (f : gmap string tipo_no)
  : gmap string tipo_no :=
  foldl (fun f path => match path with Some p => delete p f | None => f end) f paths.

Fixpoint remover_artefatos (paths : list (option string)) : M unit :=
  match paths with
  | [] => ret tt
  | p :: resto => remover_artefato p ;;; remover_artefatos resto
  end.

(** [cutoff = datetime.now() - timedelta(days=config.BACKUP_RETENTION_DAYS)] *)
Definition cutoff (agora : Z) : Z := agora - Py.dias (BACKUP_RETENTION_DAYS cfg).

(** [SELECT path FROM backups WHERE timestamp < ? AND sucesso = 1] *)
Definition paths_antigos (cutoff : Z) (t : list linha) : list (option string) :=
  map b_path (filter (fun r => b_timestamp r < cutoff ∧ b_sucesso r = true) t).

(** [DELETE FROM backups WHERE timestamp < ?] *)
Definition delete_antigos (cutoff : Z) (t : list linha) : list linha :=
  filter (fun r => ¬ (b_timestamp r < cutoff)) t.

Definition _limpar_backups_antigos (agora : Z) : M unit :=
  fun w =>
    let cutoff := cutoff agora in
    let backups_antigos := paths_antigos cutoff (backups w) in
    (remover_artefatos backups_antigos ;;;
     com_backups (delete_antigos cutoff)) w.

Definition linha_sucesso (backup_id : string) (r : relogio)
    (resultado : resultado_copia) (duracao : Q)
    (estrategia : Inteligencia.estrategia) (targets : list string) : linha :=
  {| b_id := backup_id;
     b_timestamp := t_registro r;
     b_path := Some (caminho_final resultado);
     b_tamanho_mb := Some (tamanho_mb resultado);
     b_duracao := Some duracao;
     b_tipo := Some (default "incremental" (Inteligencia.tipo estrategia));
     b_targets := targets;
     b_sucesso := true;
     b_erro := None |}.

Definition linha_falha (backup_id : string) (r : relogio) (e : Py.excecao) : linha :=
  {| b_id := backup_id;
     b_timestamp := t_falha r;
     b_path := None;
     b_tamanho_mb := None;
     b_duracao := None;
     b_tipo := None;
     b_targets := [];
     b_sucesso := false;
     b_erro := Some (Py.str e) |}.

(** The [try] block of [executar_backup]. *)
Definition tentar_backup (estrategia : Inteligencia.estrategia) (r : relogio)
    (backup_id backup_path : string) : M retorno :=
  targets <- _determinar_targets estrategia ;;
  tamanho_estimado <- _calcular_tamanho targets ;;
  espaco <- _verificar_espaco tamanho_estimado ;;
  if negb espaco then raise (Py.BackupError "Espaço em disco insuficiente")
  else
    resultado <- _executar_backup_sync backup_path targets estrategia ;;
    let duracao := Py.total_seconds (t_fim r - t_inicio r) in
    resultado <-
      (if default true (Inteligencia.compressao estrategia)
       then _compactar_backup backup_path resultado
       else ret resultado) ;;
    _registrar_backup
      (linha_sucesso backup_id r resultado duracao estrategia targets) ;;;
    _limpar_backups_antigos (t_limpeza r) ;;;
    ret {| r_id := backup_id;
           r_sucesso := true;
           r_tamanho_mb := tamanho_mb resultado;
           r_duracao := duracao;
           r_caminho := caminho_final resultado;
           r_arquivos := arquivos resultado |}.

(** Its [except Exception as e] block. *)
Definition registrar_falha (r : relogio) (backup_id : string) (e : Py.excecao)
  : M retorno :=
  _registrar_backup (linha_falha backup_id r e) ;;;
  raise (Py.BackupError ("Falha no backup: " +:+ Py.str e)).

Definition executar_backup (estrategia : Inteligencia.estrategia) (r : relogio)
  : M retorno :=
  let backup_id := strftime_id (t_id r) in
  let backup_path := BACKUP_DIR cfg +:+ "/backup_" +:+ backup_id in
  try_except
    (tentar_backup estrategia r backup_id backup_path)
    (registrar_falha r backup_id).

End ComAmbiente.
End Backup.

(** ** [GerenciadorCooldown.get_status] *)

Module Status.

(** One entry of the dict that [get_status] returns. *)
Record entrada : Type := {
  ultimo_envio : Z;
  cooldown_atual : Q;
  cooldown_restante : Q;
  sucesso : bool
}.

(** The body of the loop for one item of [self.cooldowns]; an entry
    without [timestamp] is skipped. *)
Definition entrada_de (g : Cooldown.estado) (agora : Z) (tipo : string)
    (i : Cooldown.info) : option entrada :=
  match i with
  | Cooldown.VazioInfo => None
  | Cooldown.Envio timestamp sucesso _ =>
      let tempo_desde := Py.total_seconds (agora - timestamp) in
      let adaptativo := default 1800%Q (Cooldown.adaptive_cooldowns g !! tipo) in
      let cooldown_restante := Qmax 0 (adaptativo - tempo_desde) in
      Some {| ultimo_envio := timestamp;
              cooldown_atual := Inteligencia.round_nd adaptativo 0;
              cooldown_restante := Inteligencia.round_nd cooldown_restante 0;
              sucesso := sucesso |}
  end.

Definition get_status (g : Cooldown.estado) (agora : Z) : gmap string entrada :=
  map_imap (entrada_de g agora) (Cooldown.cooldowns g).

End Status.

(** ** [SistemaMonitor.verificar_alertas] *)

Module Sistema.

(** The entries of the snapshot that the threshold rules read. *)
Record leitura : Type := {
  cpu_percent : option Q;
  memory_percent : option Q;
  disk_total_percent : option Q;
  processes_zombie : option Q
}.

(** The three thresholds of [Config], with the defaults of the dataclass. *)
Record limiares : Type := {
  CPU_ALERT_THRESHOLD : Q;
  MEMORY_ALERT_THRESHOLD : Q;
  DISK_ALERT_THRESHOLD : Q
}.

Definition limiares_padrao : limiares :=
  {| CPU_ALERT_THRESHOLD := 80;
     MEMORY_ALERT_THRESHOLD := 85;
     DISK_ALERT_THRESHOLD := 90 |}.

Section ComFormato.

(** [f"{x:.1f}"] and [f"{n}"]. *)
Variable formatar_1f : Q -> string.
Variable formatar_n : Q -> string.

Definition verificar_alertas (cfg : limiares) (metrics : leitura) : list Alerta :=
  let alertas := [] in
  let cpu_percent := default 0%Q (cpu_percent metrics) in
  let alertas :=
    if Py.gtb cpu_percent (CPU_ALERT_THRESHOLD cfg) then
      alertas ++
      [{| a_id := None;
          a_tipo := Some "cpu_alta";
          a_severidade := Some (if Py.gtb cpu_percent 90 then "alta" else "media");
          a_mensagem := Some ("⚠️ CPU em " +:+ formatar_1f cpu_percent +:+ "%");
          a_timestamp := None;
          a_valor := Some cpu_percent;
          a_threshold := Some (CPU_ALERT_THRESHOLD cfg) |}]
    else alertas in
  let mem_percent := default 0%Q (memory_percent metrics) in
  let alertas :=
    if Py.gtb mem_percent (MEMORY_ALERT_THRESHOLD cfg) then
      alertas ++
      [{| a_id := None;
          a_tipo := Some "memoria_alta";
          a_severidade := Some (if Py.gtb mem_percent 95 then "alta" else "media");
          a_mensagem := Some ("⚠️ Memória em " +:+ formatar_1f mem_percent +:+ "%");
          a_timestamp := None;
          a_valor := Some mem_percent;
          a_threshold := Some (MEMORY_ALERT_THRESHOLD cfg) |}]
    else alertas in
  let disk_percent := default 0%Q (disk_total_percent metrics) in
  let alertas :=
    if Py.gtb disk_percent (DISK_ALERT_THRESHOLD cfg) then
      alertas ++
      [{| a_id := None;
          a_tipo := Some "disco_alto";
          a_severidade := Some (if Py.gtb disk_percent 95 then "alta" else "media");
          a_mensagem := Some ("⚠️ Disco em " +:+ formatar_1f disk_percent +:+ "%");
          a_timestamp := None;
          a_valor := Some disk_percent;
          a_threshold := Some (DISK_ALERT_THRESHOLD cfg) |}]
    else alertas in
  let zombie_count := default 0%Q (processes_zombie metrics) in
  let alertas :=
    if Py.gtb zombie_count 0 then
      alertas ++
      [{| a_id := None;
          a_tipo := Some "processos_zombie";
          a_severidade := Some "baixa";
          a_mensagem :=
            Some ("⚠️ " +:+ formatar_n zombie_count
                  +:+ " processo(s) zombie detectado(s)");
          a_timestamp := None;
          a_valor := Some zombie_count;
          a_threshold := None |}]
    else alertas in
  alertas.

End ComFormato.
End Sistema.

(** ** [PreditorFalhas._carregar_dados_treinamento]: the target column *)

Module Treino.

(** [(janela > 95).sum()] for [janela = df['cpu_percent'].iloc[i:i + 288]]. *)
Definition leituras_criticas (cpu : list Q) (i : nat) : nat :=
  length (filter (fun x => Py.gtb x 95 = true) (take 288 (drop i cpu))).

(** The column [falha_futura]: 0 everywhere, then 1 at each [i] of
    [range(len(df) - 288)] whose window has five readings above 95. *)
Definition falha_futura (cpu : list Q) : list Z :=
  map (fun i =>
         if (i <? length cpu - 288)%nat && (5 <=? leituras_criticas cpu i)%nat
         then 1 else 0)
      (seq 0 (length cpu)).

End Treino.

(** ** [GerenciadorBackup._determinar_targets], written out *)

Module Alvos.
Import Tabela.

(** [_get_ultimo_backup_completo]: the query of [_get_ultimo_backup_sucesso]
    with [AND tipo = 'completo']. *)
Definition ultimo_completo (t : list linha) : option linha :=
  ultimo_sucesso (filter (fun r => b_tipo r = Some "completo") t).

Section ComVarredura.

(** The files found by [Path(path).rglob] under a root that exists, with
    a modification time later than the instant; none for a root that does
    not exist. *)
Variable modificados_desde : string -> Z -> list string.

(** [targets] before duplicates are removed. *)
Definition alvos_brutos (estrategia : Inteligencia.estrategia) (backups : list linha)
  : list string :=
  let tipo := default "incremental" (Inteligencia.tipo estrategia) in
  if String.eqb tipo "completo" then ["/etc"; "/home"; "/var/www"; "/opt"]
  else if String.eqb tipo "incremental" then
    match ultimo_sucesso backups with
    | Some ultimo_backup =>
        let last_time := b_timestamp ultimo_backup in
        flat_map (fun path => modificados_desde path last_time) ["/etc"; "/home"]
    | None => ["/etc"; "/home"]
    end
  else if String.eqb tipo "diferencial" then
    match ultimo_completo backups with
    | Some ultimo_completo =>
        let last_time := b_timestamp ultimo_completo in
        flat_map (fun path => modificados_desde path last_time) ["/etc"; "/home"]
    | None => ["/etc"; "/home"]
    end
  else [].

(** [list(set(targets))]: the elements of the set, in the order of the
    set, on which nothing here depends. *)
Definition _determinar_targets (estrategia : Inteligencia.estrategia)
    (backups : list linha) : list string :=
  elements (list_to_set (alvos_brutos estrategia backups) : gset string).

End ComVarredura.
End Alvos.

(** ** [GerenciadorBackup.restaurar_backup] *)

Module Restauracao.
Import Tabela Backup.

(** The dict that [restaurar_backup] returns. *)
Record restauro : Type := {
  rs_sucesso : bool;
  rs_backup_id : string;
  rs_destino : string;
  rs_timestamp : Z
}.

(** [SELECT path, tipo FROM backups WHERE id = ? AND sucesso = 1] *)
Definition linhas_restauraveis (backup_id : string) (t : list linha) : list linha :=
  filter (fun r => b_id r = backup_id ∧ b_sucesso r = true) t.

Section ComRestauro.

(** The [try] body: [extractall] of a [.zip] path or [copytree] of any
    other, from the recorded path into the destination; its outcome and
    the files after it. *)
Variable restaurar_arquivos :
  string -> string -> gmap string tipo_no -> Py.resultado unit * gmap string tipo_no.

Definition restaurar_backup (backup_id destino : string) (agora : Z) : M restauro :=
  fun w =>
    match linhas_restauraveis backup_id (backups w) with
    | [] =>
        (Py.Raise (Py.BackupError ("Backup " +:+ backup_id +:+ " não encontrado")), w)
    | row :: _ =>
        match b_path row with
        | None =>
            (Py.Raise (Py.Outra "TypeError"
                         "expected str, bytes or os.PathLike object, not NoneType"), w)
        | Some backup_path =>
            let '(r, fs') := restaurar_arquivos backup_path destino (fs w) in
            let w' := {| backups := backups w; fs := fs'; escritas := escritas w |} in
            match r with
            | Py.Ok _ =>
                (Py.Ok {| rs_sucesso := true;
                          rs_backup_id := backup_id;
                          rs_destino := destino;
                          rs_timestamp := agora |}, w')
            | Py.Raise e =>
                (Py.Raise (Py.BackupError ("Falha na restauração: " +:+ Py.str e)), w')
            end
        end
    end.

End ComRestauro.
End Restauracao.

(** ** More sample inputs *)

Module Amostras.

(** A snapshot with the processor at 96 per cent and the rest at ease. *)
Definition leitura_cpu_96 : Sistema.leitura :=
  {| Sistema.cpu_percent := Some 96%Q;
     Sistema.memory_percent := Some 40%Q;
     Sistema.disk_total_percent := None;
     Sistema.processes_zombie := Some 0%Q |}.

(** The alert that the processor rule raises for it. *)
Definition alerta_cpu_96 : Alerta :=
  {| a_id := None;
     a_tipo := Some "cpu_alta";
     a_severidade := Some "alta";
     a_mensagem := Some "⚠️ CPU em %";
     a_timestamp := None;
     a_valor := Some 96%Q;
     a_threshold := Some 80%Q |}.

(** Twenty-five hours of readings at 96 per cent, one every five minutes. *)
Definition cpu_sempre_96 : list Q := replicate 300 96%Q.

(** A scan that finds one changed file under each root, whatever the
    instant. *)
Definition um_arquivo_por_raiz (path : string) (desde : Z) : list string :=
  [path +:+ "/novo.conf"].

(** An extraction that succeeds and leaves the destination directory. *)
Definition restauro_simples (backup_path destino : string)
    (f : gmap string Backup.tipo_no)
  : Py.resultado unit * gmap string Backup.tipo_no :=
  (Py.Ok tt, <[destino := Backup.Diretorio]> f).

End Amostras.

(** ** Sample inputs *)

Module Exemplos.

(** An alert of type [cpu_alta] with the given severity. *)
Definition alerta_cpu (severidade : string) : Alerta :=
  {| a_id := None;
     a_tipo := Some "cpu_alta";
     a_severidade := Some severidade;
     a_mensagem := None;
     a_timestamp := None;
     a_valor := None;
     a_threshold := None |}.

(** Three instants, and one after them. *)
Definition tres_instantes : list Z := [10; 20; 30].
Definition instante_seguinte : Z := 40.

(** A failed delivery followed by two successful ones. *)
Definition tres_envios : list (Alerta * bool * Z) :=
  [(alerta_cpu "alta", false, 1); (alerta_cpu "ALTA", true, 2);
   (alerta_cpu "alta", true, 3)].

(** The cooldown engine after a delivered [cpu_alta] alert of severity
    [alta] at instant 0. *)
Definition apos_primeiro_registro : Cooldown.estado :=
  Cooldown.registrar_envio Cooldown.novo (alerta_cpu "alta") true 0.

(** A snapshot with a busy processor. *)
Definition metricas_cpu : Preditor.metricas :=
  {| Preditor.cpu_percent := Some 96%Q;
     Preditor.memory_percent := Some 40%Q;
     Preditor.disk_total_percent := Some 55%Q;
     Preditor.load_avg := Some [1%Q; 1%Q; 1%Q];
     Preditor.processes_total := Some 120%Q;
     Preditor.connections_count := Some 8%Q |}.

(** A model that would answer 0.9, and a plain percentage format. *)
Definition proba_alta (m : Preditor.metricas) (agora : Z) : Py.resultado Q :=
  Py.Ok (9 # 10).
Definition sem_formato (p : Q) : string := "".

(** Sizing and clustering models with constant answers, and a history
    query with no row. *)
Definition cluster_zero (X : list Q) : Z := 0.
Definition tamanho_um (X : list Q) : Q := 1.
Definition sem_hora (t : list Tabela.linha) : option Z := None.

(** A successful full backup recorded at the given instant. *)
Definition backup_ok (id : string) (t : Z) (path : string) : Tabela.linha :=
  {| Tabela.b_id := id;
     Tabela.b_timestamp := t;
     Tabela.b_path := Some path;
     Tabela.b_tamanho_mb := Some 10%Q;
     Tabela.b_duracao := Some 2%Q;
     Tabela.b_tipo := Some "completo";
     Tabela.b_targets := ["/etc"];
     Tabela.b_sucesso := true;
     Tabela.b_erro := None |}.

(** A failed attempt recorded at the given instant. *)
Definition backup_falho (id : string) (t : Z) : Tabela.linha :=
  {| Tabela.b_id := id;
     Tabela.b_timestamp := t;
     Tabela.b_path := None;
     Tabela.b_tamanho_mb := None;
     Tabela.b_duracao := None;
     Tabela.b_tipo := None;
     Tabela.b_targets := [];
     Tabela.b_sucesso := false;
     Tabela.b_erro := Some "Espaço em disco insuficiente" |}.

(** A backup volume seen through fixed answers: one target of ten MiB, a
    copy that leaves the backup directory, an archive of five MiB that
    replaces it, and [livre] bytes free. *)
Definition MiB : Z := 1024 * 1024.
Definition alvos_fixos (e : Inteligencia.estrategia) (t : list Tabela.linha)
    (fs : gmap string Backup.tipo_no) : Py.resultado (list string) :=
  Py.Ok ["/etc"].
Definition dez_MiB (targets : list string) (fs : gmap string Backup.tipo_no)
  : Py.resultado Z := Py.Ok (10 * MiB).
Definition livre_fixo (livre : Z) (fs : gmap string Backup.tipo_no) : Z := livre.
Definition copia_simples (backup_path : string) (targets : list string)
    (e : Inteligencia.estrategia) (fs : gmap string Backup.tipo_no)
  : Py.resultado (Z * Z) * gmap string Backup.tipo_no :=
  (Py.Ok (1, 10 * MiB), <[backup_path := Backup.Diretorio]> fs).
Definition zip_simples (backup_path compactado_path : string)
    (fs : gmap string Backup.tipo_no)
  : Py.resultado Z * gmap string Backup.tipo_no :=
  (Py.Ok (5 * MiB), <[compactado_path := Backup.Arquivo]> (delete backup_path fs)).

(** [%Y%m%d_%H%M%S] stands here for a fixed text per instant. *)
Definition id_fixo (t : Z) : string := "20240201_020000".

(** The strategy that [main.py] uses when the optimiser is off. *)
Definition estrategia_incremental : Inteligencia.estrategia :=
  {| Inteligencia.tipo := Some "incremental";
     Inteligencia.compressao := None;
     Inteligencia.prioridade := Some "media";
     Inteligencia.tamanho_estimado_mb := None;
     Inteligencia.horario_sugerido := None;
     Inteligencia.dias_desde_ultimo_backup := None;
     Inteligencia.confianca := None |}.

(** A call that reads the clock at 32 days and a few seconds. *)
Definition relogio_32_dias : Backup.relogio :=
  {| Backup.t_id := Py.dias 32;
     Backup.t_inicio := Py.dias 32 + Py.segundos 1;
     Backup.t_fim := Py.dias 32 + Py.segundos 5;
     Backup.t_registro := Py.dias 32 + Py.segundos 6;
     Backup.t_limpeza := Py.dias 32 + Py.segundos 7;
     Backup.t_falha := Py.dias 32 + Py.segundos 8 |}.

(** A table with an old successful backup, an old failed attempt and a
    recent successful backup, and the archives of the two successes. *)
Definition mundo_antigo : Backup.mundo :=
  {| Backup.backups :=
       [backup_ok "20240101_020000" (Py.dias 1) "data/backups/backup_20240101_020000.zip";
        backup_falho "20240101_030000" (Py.dias 1 + Py.segundos 3600);
        backup_ok "20240131_020000" (Py.dias 31) "data/backups/backup_20240131_020000.zip"];
     Backup.fs :=
       <["data/backups/backup_20240101_020000.zip" := Backup.Arquivo]>
         (<["data/backups/backup_20240131_020000.zip" := Backup.Arquivo]> ∅);
     Backup.escritas := [] |}.

(** A table whose only row is an old failed attempt. *)
Definition mundo_so_falha : Backup.mundo :=
  {| Backup.backups := [backup_falho "20240101_030000" (Py.dias 1 + Py.segundos 3600)];
     Backup.fs := ∅;
     Backup.escritas := [] |}.

(** One call on that volume and table, with [livre] bytes free. *)
Definition executa (livre : Z) : Py.resultado Backup.retorno * Backup.mundo :=
  Backup.executar_backup config_padrao id_fixo alvos_fixos dez_MiB
    (livre_fixo livre) copia_simples zip_simples
    estrategia_incremental relogio_32_dias mundo_antigo.

(** The same call with a retention of zero days, on an empty table. *)
Definition config_sem_retencao : Config :=
  {| BACKUP_DIR := "data/backups";
     BACKUP_RETENTION_DAYS := 0;
     ENABLE_ML := true;
     PREDICTION_THRESHOLD := 7 # 10 |}.

Definition mundo_vazio : Backup.mundo :=
  {| Backup.backups := []; Backup.fs := ∅; Backup.escritas := [] |}.

Definition executa_sem_retencao : Py.resultado Backup.retorno * Backup.mundo :=
  Backup.executar_backup config_sem_retencao id_fixo alvos_fixos dez_MiB
    (livre_fixo (100 * MiB)) copia_simples zip_simples
    estrategia_incremental relogio_32_dias mundo_vazio.

(** Whether [executar_backup] returned its dict with [sucesso] set. *)
Definition retornou_sucesso (r : Py.resultado Backup.retorno) : bool :=
  match r with
  | Py.Ok dev => Backup.r_sucesso dev
  | Py.Raise _ => false
  end.

End Exemplos.

(** * Properties *)

(** ** Numbers and tables *)

Section FatosPy.

Lemma ltb_true x y : Py.ltb x y = true <-> (x < y)%Q.
Proof.
  unfold Py.ltb. destruct (Qlt_le_dec x y) as [H|H]; split; intros; try done.
  exfalso. by apply (Qlt_not_le x y).
Qed.

Lemma ltb_false x y : Py.ltb x y = false <-> (y <= x)%Q.
Proof.
  unfold Py.ltb. destruct (Qlt_le_dec x y) as [H|H]; split; intros; try done.
  exfalso. by apply (Qlt_not_le x y).
Qed.

Lemma dict_get_cons {V} k' (v : V) d k dflt :
  Py.dict_get ((k', v) :: d) k dflt =
  if String.eqb k k' then v else Py.dict_get d k dflt.
Proof. reflexivity. Qed.

Lemma dict_get_nil {V} k (dflt : V) : Py.dict_get [] k dflt = dflt.
Proof. reflexivity. Qed.

End FatosPy.

(** Opens a dict literal into the chain of its key tests. *)
Ltac abrir_dict :=
  repeat rewrite dict_get_cons; rewrite ?dict_get_nil.

(** Splits on every key test in the goal. *)
Ltac por_chave :=
  repeat match goal with
         | |- context [String.eqb ?a ?b] => destruct (String.eqb a b) eqn:?
         end.

(** ** The cooldown engine *)

Section FatosCooldown.
Import Cooldown.

Lemma base_cooldown_pos severidade : 60 <= _get_base_cooldown severidade.
Proof. unfold _get_base_cooldown. abrir_dict. por_chave; lia. Qed.

Lemma base_cooldown_posQ severidade :
  (0 < inject_Z (_get_base_cooldown severidade))%Q.
Proof.
  pose proof (base_cooldown_pos severidade).
  change 0%Q with (inject_Z 0). rewrite <- Zlt_Qlt. lia.
Qed.

(** The window that one call leaves, read off the window before it. *)
Lemma cooldown_vigente_registrar g alerta sucesso t :
  let base := inject_Z (_get_base_cooldown (get_severidade alerta)) in
  cooldown_vigente (registrar_envio g alerta sucesso t) alerta =
  if negb sucesso then (cooldown_vigente g alerta * (3 # 2))%Q
  else Qmax base (cooldown_vigente g alerta * (9 # 10))%Q.
Proof.
  unfold cooldown_vigente, registrar_envio. cbn [adaptive_cooldowns].
  destruct (adaptive_cooldowns g !! get_tipo alerta) as [c|] eqn:E;
    destruct sucesso; cbn [negb];
    rewrite ?lookup_insert_eq, ?E; cbn [default]; rewrite ?lookup_insert_eq;
    reflexivity.
Qed.

Lemma janela_registrar_outro g alerta sucesso t tipo :
  get_tipo alerta ≠ tipo →
  janela (registrar_envio g alerta sucesso t) tipo = janela g tipo.
Proof.
  intros Hne. unfold janela, registrar_envio. cbn [adaptive_cooldowns].
  destruct (adaptive_cooldowns g !! get_tipo alerta) as [c|] eqn:E;
    destruct sucesso; cbn [negb];
    rewrite ?lookup_insert_ne by done; reflexivity.
Qed.

Lemma janela_registrar_mesmo g alerta sucesso t :
  janela (registrar_envio g alerta sucesso t) (get_tipo alerta) =
  Some (cooldown_vigente (registrar_envio g alerta sucesso t) alerta).
Proof.
  unfold janela, cooldown_vigente, registrar_envio. cbn [adaptive_cooldowns].
  destruct (adaptive_cooldowns g !! get_tipo alerta) as [c|] eqn:E;
    destruct sucesso; cbn [negb]; rewrite !lookup_insert_eq; reflexivity.
Qed.

Lemma pot_succ (n : nat) :
  ((3 # 2) ^ Z.of_nat (S n) == (3 # 2) ^ Z.of_nat n * (3 # 2))%Q.
Proof.
  rewrite Nat2Z.inj_succ. unfold Z.succ.
  rewrite Qpower_plus by discriminate. reflexivity.
Qed.

Lemma falhas_seguidas g alerta instantes :
  (cooldown_vigente (registrar_varios g alerta false instantes) alerta ==
   cooldown_vigente g alerta * (3 # 2) ^ Z.of_nat (length instantes))%Q.
Proof.
  revert g. induction instantes as [|t ts IH]; intros g.
  - unfold registrar_varios. cbn [foldl length].
    change ((3 # 2) ^ Z.of_nat 0)%Q with 1%Q. ring.
  - unfold registrar_varios in *. cbn [foldl]. rewrite IH.
    rewrite cooldown_vigente_registrar. cbn [negb length].
    rewrite pot_succ. ring.
Qed.

Lemma registrar_preserva_piso g alerta sucesso t tipo base :
  (get_tipo alerta = tipo →
   _get_base_cooldown (get_severidade alerta) = base) →
  (∀ w, janela g tipo = Some w → (inject_Z base <= w)%Q) →
  ∀ w, janela (registrar_envio g alerta sucesso t) tipo = Some w →
       (inject_Z base <= w)%Q.
Proof.
  intros Hsev Hinv w Hw.
  destruct (decide (get_tipo alerta = tipo)) as [Heq|Hne].
  - specialize (Hsev Heq). subst tipo base.
    rewrite janela_registrar_mesmo in Hw. injection Hw as <-.
    rewrite cooldown_vigente_registrar.
    assert (Hcv : (inject_Z (_get_base_cooldown (get_severidade alerta))
                   <= cooldown_vigente g alerta)%Q).
    { unfold cooldown_vigente. unfold janela in Hinv.
      destruct (adaptive_cooldowns g !! get_tipo alerta) as [c|] eqn:E.
      - by apply Hinv.
      - apply Qle_refl. }
    pose proof (base_cooldown_posQ (get_severidade alerta)) as Hpos.
    destruct sucesso; cbn [negb].
    + apply Q.le_max_l.
    + lra.
  - rewrite janela_registrar_outro in Hw by done. by apply Hinv.
Qed.

(** C5.  Starting from the base window of the alert's severity, [N] failed
    deliveries in a row leave the window of the alert's type at
    base x 1.5^N; one success after them leaves it at the larger of the base
    and 0.9 times that, and this is the value stored for the type in
    [adaptive_cooldowns]. *)
Theorem janela_apos_falhas_e_sucesso
    (g : estado) (alerta : Alerta) (instantes : list Z) (t : Z) :
  (cooldown_vigente g alerta ==
   inject_Z (_get_base_cooldown (get_severidade alerta)))%Q →
  (cooldown_vigente (registrar_varios g alerta false instantes) alerta ==
   inject_Z (_get_base_cooldown (get_severidade alerta))
   * (3 # 2) ^ Z.of_nat (length instantes))%Q
  ∧ (cooldown_vigente
       (registrar_envio (registrar_varios g alerta false instantes) alerta true t)
       alerta ==
     Qmax (inject_Z (_get_base_cooldown (get_severidade alerta)))
          (inject_Z (_get_base_cooldown (get_severidade alerta))
           * (3 # 2) ^ Z.of_nat (length instantes) * (9 # 10)))%Q
  ∧ janela
      (registrar_envio (registrar_varios g alerta false instantes) alerta true t)
      (get_tipo alerta) =
    Some (cooldown_vigente
            (registrar_envio (registrar_varios g alerta false instantes) alerta true t)
            alerta).
Proof.
  intros Hbase.
  assert (H1 : (cooldown_vigente (registrar_varios g alerta false instantes) alerta ==
                inject_Z (_get_base_cooldown (get_severidade alerta))
                * (3 # 2) ^ Z.of_nat (length instantes))%Q).
  { rewrite falhas_seguidas, Hbase. reflexivity. }
  split; [exact H1|]. split.
  - rewrite cooldown_vigente_registrar. cbn [negb].
    apply Q.max_compat; [reflexivity|]. rewrite H1. reflexivity.
  - apply janela_registrar_mesmo.
Qed.

(** C6.  Along any run of [registrar_envio] calls in which the alerts of a
    type all carry a severity of the same base window, the adaptive window
    stored for that type never falls below that base window. *)
Theorem janela_nunca_abaixo_da_base
    (g : estado) (chamadas : list (Alerta * bool * Z)) (tipo : string) (base : Z) :
  (∀ a s t, (a, s, t) ∈ chamadas → get_tipo a = tipo →
            _get_base_cooldown (get_severidade a) = base) →
  (∀ w, janela g tipo = Some w → (inject_Z base <= w)%Q) →
  ∀ w, janela (registrar_seq g chamadas) tipo = Some w → (inject_Z base <= w)%Q.
Proof.
  revert g. induction chamadas as [|[[a s] t] cs IH]; intros g Hsev Hinv.
  - exact Hinv.
  - unfold registrar_seq in *. cbn [foldl]. apply IH.
    + intros a' s' t' Hin. apply (Hsev a' s' t'). set_solver.
    + apply registrar_preserva_piso; [|exact Hinv].
      apply (Hsev a s t). set_solver.
Qed.

Lemma janela_apos_falhas_e_sucesso_witness :
  (cooldown_vigente novo (Exemplos.alerta_cpu "alta") == 300)%Q
  ∧ (cooldown_vigente
       (registrar_varios novo (Exemplos.alerta_cpu "alta") false
          Exemplos.tres_instantes)
       (Exemplos.alerta_cpu "alta") == 2025 # 2)%Q
  ∧ (cooldown_vigente
       (registrar_envio
          (registrar_varios novo (Exemplos.alerta_cpu "alta") false
             Exemplos.tres_instantes)
          (Exemplos.alerta_cpu "alta") true Exemplos.instante_seguinte)
       (Exemplos.alerta_cpu "alta") == 3645 # 4)%Q.
Proof.
  assert (H : (cooldown_vigente novo (Exemplos.alerta_cpu "alta") ==
               inject_Z (_get_base_cooldown
                           (get_severidade (Exemplos.alerta_cpu "alta"))))%Q)
    by reflexivity.
  destruct (janela_apos_falhas_e_sucesso
              novo (Exemplos.alerta_cpu "alta") Exemplos.tres_instantes
              Exemplos.instante_seguinte H) as (H1 & H2 & _).
  split; [reflexivity|]. split.
  - rewrite H1. reflexivity.
  - rewrite H2. reflexivity.
Defined.

Lemma janela_nunca_abaixo_da_base_witness :
  janela (registrar_seq novo Exemplos.tres_envios) "cpu_alta" = Some (72900 # 200)
  ∧ (inject_Z 300 <= 72900 # 200)%Q.
Proof.
  split; [vm_compute; reflexivity|].
  apply (janela_nunca_abaixo_da_base novo Exemplos.tres_envios "cpu_alta" 300).
  - intros a s t Hin _. unfold Exemplos.tres_envios in Hin.
    rewrite !elem_of_cons, elem_of_nil in Hin.
    destruct Hin as [Hin|[Hin|[Hin|[]]]]; injection Hin as -> _ _; reflexivity.
  - intros w Hw. vm_compute in Hw. discriminate Hw.
  - vm_compute. reflexivity.
Defined.

End FatosCooldown.

(** ** The two tables of base windows *)

Section FatosTabelas.

(** C10, as the code has it.  The table of [GerenciadorCooldown] and the
    table of [GerenciadorAlertas] give the same number of seconds for every
    severity string but those that lower-case to [info], where the first
    gives 43200 and the second 86400. *)
Theorem tabelas_de_cooldown_iguais_salvo_info (severidade : string) :
  (Py.lower severidade ≠ "info" →
   Cooldown._get_base_cooldown severidade = Canais._get_cooldown_periodo severidade)
  ∧ (Py.lower severidade = "info" →
     Cooldown._get_base_cooldown severidade = 43200
     ∧ Canais._get_cooldown_periodo severidade = 86400).
Proof.
  unfold Cooldown._get_base_cooldown, Canais._get_cooldown_periodo.
  split.
  - intros Hne. abrir_dict. por_chave; try reflexivity.
    exfalso. apply Hne. by apply String.eqb_eq.
  - intros ->. split; reflexivity.
Qed.

Lemma tabelas_de_cooldown_iguais_salvo_info_witness :
  Cooldown._get_base_cooldown "Critica" = Canais._get_cooldown_periodo "Critica"
  ∧ Cooldown._get_base_cooldown "INFO" = 43200
  ∧ Canais._get_cooldown_periodo "INFO" = 86400.
Proof.
  split.
  - apply (proj1 (tabelas_de_cooldown_iguais_salvo_info "Critica")).
    vm_compute. discriminate.
  - apply (proj2 (tabelas_de_cooldown_iguais_salvo_info "INFO")).
    vm_compute. reflexivity.
Defined.

(** C10, as stated, fails at the severity [info]: twelve hours in one
    table, a day in the other. *)
Lemma tabelas_de_cooldown_diferem_em_info :
  Cooldown._get_base_cooldown "info" = 43200
  ∧ Canais._get_cooldown_periodo "info" = 86400
  ∧ Cooldown._get_base_cooldown "info" ≠ Canais._get_cooldown_periodo "info".
Proof. repeat split; [reflexivity..|vm_compute; discriminate]. Qed.

End FatosTabelas.

(** ** The priority score *)

Section FatosPrioridade.
Import Priorizador.

Variable contagem_24h : string -> Z.

Lemma impacto_limites alerta : 5 <= _calcular_impacto alerta <= 25.
Proof.
  unfold _calcular_impacto. abrir_dict.
  destruct (a_valor alerta), (a_threshold alerta);
    repeat match goal with
           | |- context [Py.gtb ?a ?b] => destruct (Py.gtb a b)
           end;
    por_chave; lia.
Qed.

Lemma recencia_limites alerta t_padrao agora :
  0 <= _calcular_recencia alerta t_padrao agora <= 15.
Proof.
  unfold _calcular_recencia.
  destruct (default (TsValido t_padrao) (a_timestamp alerta)); [|lia].
  repeat match goal with
         | |- context [Py.ltb ?a ?b] => destruct (Py.ltb a b)
         end; lia.
Qed.

Lemma severidade_limites severidade :
  5 <= Py.dict_get
         [("critica", 40); ("alta", 30); ("media", 20); ("baixa", 10); ("info", 5)]
         (Py.lower severidade) 20 <= 40.
Proof. abrir_dict. por_chave; lia. Qed.

(** C9.  [calcular_prioridade] returns no score: whatever the alert, the
    count of recent alerts in the table and the clock, the call of
    [_calcular_frequencia] evaluates [config], which [priorizacao.py] binds
    nowhere, and the [NameError] leaves [calcular_prioridade] before the
    impact and recency terms are computed. *)
Theorem calcular_prioridade_levanta_NameError (alerta : Alerta) (t_padrao agora : Z) :
  calcular_prioridade contagem_24h alerta t_padrao agora =
  Py.Raise (Py.Outra "NameError" "name 'config' is not defined").
Proof.
  unfold calcular_prioridade, _calcular_frequencia.
  assert (Hnome : Py.nome_global globais "config" =
                  Py.Raise (Py.Outra "NameError" "name 'config' is not defined"))
    by (vm_compute; reflexivity).
  by rewrite Hnome.
Qed.

End FatosPrioridade.

(** ** Suppression of an alert in cooldown *)

Section FatosSupressao.
Import Canais.

Variable esta_ativo : string -> bool.
Variable canal_enviar : string -> Alerta -> Py.resultado bool.



End FatosSupressao.

(** ** The untrained failure predictor *)

Section FatosPreditor.
Import Preditor.

Variable predict_proba : metricas -> Z -> Py.resultado Q.
Variable formatar_percentual : Q -> string.

(** C7.  With an untrained model [prever_falha] returns, without raising,
    probability 0 and the marker [Modelo não treinado], for every snapshot;
    and as 0 does not exceed a threshold that is not negative, the
    prediction block of the monitoring loop leaves the list of alerts as it
    was: no [predicao_falha] alert is added. *)
Theorem modelo_nao_treinado_nao_gera_alerta
    (cfg : Config) (p : estado) (metrics : metricas) (alertas : list Alerta)
    (agora : Z) :
  is_trained p = false →
  (0 <= PREDICTION_THRESHOLD cfg)%Q →
  prever_falha predict_proba p metrics agora =
    Py.Ok {| probabilidade := 0;
             nivel_risco := "desconhecido";
             mensagem := "Modelo não treinado" |}
  ∧ bloco_predicao predict_proba formatar_percentual cfg p metrics alertas agora =
    Py.Ok alertas.
Proof.
  intros Hp Hth.
  assert (H : prever_falha predict_proba p metrics agora =
              Py.Ok {| probabilidade := 0;
                       nivel_risco := "desconhecido";
                       mensagem := "Modelo não treinado" |}).
  { unfold prever_falha. by rewrite Hp. }
  split; [exact H|].
  unfold bloco_predicao. rewrite H. cbn [probabilidade].
  destruct (ENABLE_ML cfg); [|reflexivity].
  unfold Py.gtb. apply ltb_false in Hth. by rewrite Hth.
Qed.

End FatosPreditor.

Lemma modelo_nao_treinado_nao_gera_alerta_witness :
  Preditor.prever_falha Exemplos.proba_alta {| Preditor.is_trained := false |}
    Exemplos.metricas_cpu 0 =
    Py.Ok {| Preditor.probabilidade := 0;
             Preditor.nivel_risco := "desconhecido";
             Preditor.mensagem := "Modelo não treinado" |}
  ∧ Preditor.bloco_predicao Exemplos.proba_alta Exemplos.sem_formato config_padrao
      {| Preditor.is_trained := false |} Exemplos.metricas_cpu [] 0 = Py.Ok [].
Proof.
  apply (modelo_nao_treinado_nao_gera_alerta
           Exemplos.proba_alta Exemplos.sem_formato config_padrao
           {| Preditor.is_trained := false |} Exemplos.metricas_cpu [] 0).
  - reflexivity.
  - vm_compute. discriminate.
Defined.

(** ** The last successful backup and the choice of backup type *)

Section FatosEstrategia.
Import Tabela Inteligencia.

Lemma foldl_mais_recente_None acc t :
  foldl mais_recente acc t = None ↔
  acc = None ∧ Forall (fun r => b_sucesso r = false) t.
Proof.
  revert acc. induction t as [|r t IH]; intros acc; cbn [foldl].
  - split; [intros ->; by split | by intros [-> _]].
  - rewrite IH, Forall_cons. unfold mais_recente.
    destruct (b_sucesso r) eqn:Hr.
    + split.
      * intros [H _]. destruct acc as [m|]; [|done].
        by destruct (b_timestamp m <? b_timestamp r).
      * intros (_ & [? _]). done.
    + tauto.
Qed.

Lemma foldl_mais_recente_Some acc t x :
  foldl mais_recente acc t = Some x →
  (acc = Some x ∨ (x ∈ t ∧ b_sucesso x = true))
  ∧ (∀ m, acc = Some m → b_timestamp m <= b_timestamp x)
  ∧ (∀ r, r ∈ t → b_sucesso r = true → b_timestamp r <= b_timestamp x).
Proof.
  revert acc. induction t as [|r t IH]; intros acc; cbn [foldl].
  - intros ->. split; [by left|]. split.
    + by intros m [= ->].
    + intros r Hr. by apply elem_of_nil in Hr.
  - intros H. apply IH in H as (Hx & Hacc & Hrest).
    unfold mais_recente in Hx, Hacc.
    destruct (b_sucesso r) eqn:Hr.
    + destruct acc as [m|].
      * destruct (b_timestamp m <? b_timestamp r) eqn:Hlt.
        -- apply Z.ltb_lt in Hlt. specialize (Hacc r eq_refl).
           split; [|split].
           ++ right. destruct Hx as [[= <-]|[Hin Hs]]; (split; [rewrite elem_of_cons; auto | done]).
           ++ intros m' [= <-]. lia.
           ++ intros r' Hin Hs. apply elem_of_cons in Hin as [->|Hin]; auto.
        -- apply Z.ltb_ge in Hlt. specialize (Hacc m eq_refl).
           split; [|split].
           ++ destruct Hx as [Hx|[Hin Hs]]; [by left|right].
              split; [rewrite elem_of_cons; auto | done].
           ++ by intros m' [= <-].
           ++ intros r' Hin Hs. apply elem_of_cons in Hin as [->|Hin]; auto. lia.
      * specialize (Hacc r eq_refl). split; [|split].
        -- right. destruct Hx as [[= <-]|[Hin Hs]]; (split; [rewrite elem_of_cons; auto | done]).
        -- done.
        -- intros r' Hin Hs. apply elem_of_cons in Hin as [->|Hin]; auto.
    + split; [|split].
      * destruct Hx as [Hx|[Hin Hs]]; [by left|right].
        split; [rewrite elem_of_cons; auto | done].
      * exact Hacc.
      * intros r' Hin Hs. apply elem_of_cons in Hin as [->|Hin]; auto.
        congruence.
Qed.

(** The query answers a successful row of the table whose timestamp no
    successful row exceeds, and no row only when the table has no
    successful one. *)
Lemma ultimo_sucesso_None t :
  ultimo_sucesso t = None ↔ Forall (fun r => b_sucesso r = false) t.
Proof.
  unfold ultimo_sucesso. rewrite foldl_mais_recente_None. tauto.
Qed.

Lemma ultimo_sucesso_Some t x :
  ultimo_sucesso t = Some x →
  x ∈ t ∧ b_sucesso x = true
  ∧ (∀ r, r ∈ t → b_sucesso r = true → b_timestamp r <= b_timestamp x).
Proof.
  intros H. apply foldl_mais_recente_Some in H as ([H|H] & _ & Hmax); [done|].
  tauto.
Qed.

Lemma ultimo_sucesso_timestamp t u :
  u ∈ t → b_sucesso u = true →
  (∀ r, r ∈ t → b_sucesso r = true → b_timestamp r <= b_timestamp u) →
  ∃ x, ultimo_sucesso t = Some x ∧ b_timestamp x = b_timestamp u.
Proof.
  intros Hin Hs Hmax.
  destruct (ultimo_sucesso t) as [x|] eqn:E.
  - exists x. split; [done|].
    apply ultimo_sucesso_Some in E as (Hx & Hxs & Hxmax).
    specialize (Hmax x Hx Hxs). specialize (Hxmax u Hin Hs). lia.
  - apply ultimo_sucesso_None in E. rewrite Forall_forall in E.
    specialize (E u Hin). congruence.
Qed.

Variable cluster_predict : list Q -> Z.
Variable tamanho_predict : list Q -> Q.
Variable hora_menor_duracao : list linha -> option Z.

(** C2, as the code has it.  When more than seven days have passed since
    the latest successful backup the strategy is [completo], for every
    hour, weekday and state of the model.  When the table has no successful
    backup the age is taken as one day and nothing is forced: untrained,
    the type is [completo] on weekday 0 and [incremental] on the others;
    trained, it is the type of the predicted cluster. *)
Theorem tipo_da_estrategia_sugerida
    (o : estado) (backups : list linha) (hora_atual dia_semana agora : Z) :
  (∀ u, u ∈ backups → b_sucesso u = true →
        (∀ r, r ∈ backups → b_sucesso r = true → b_timestamp r <= b_timestamp u) →
        (7 < Py.total_seconds (agora - b_timestamp u) / 86400)%Q →
        tipo (sugerir_estrategia cluster_predict tamanho_predict hora_menor_duracao
                o backups hora_atual dia_semana agora) = Some "completo")
  ∧ (Forall (fun r => b_sucesso r = false) backups →
     tipo (sugerir_estrategia cluster_predict tamanho_predict hora_menor_duracao
             o backups hora_atual dia_semana agora) =
     Some (if is_trained o
           then cluster_tipo (cluster_predict [0%Q; 0%Q; 0%Q; 0%Q])
           else if dia_semana =? 0 then "completo" else "incremental")).
Proof.
  split.
  - intros u Hin Hs Hmax Hdias.
    destruct (ultimo_sucesso_timestamp backups u Hin Hs Hmax) as (x & Hx & Hts).
    unfold sugerir_estrategia. cbn [tipo]. rewrite Hx, Hts.
    apply ltb_true in Hdias. unfold Py.gtb. rewrite Hdias.
    by destruct (is_trained o).
  - intros Hnenhum. apply ultimo_sucesso_None in Hnenhum.
    unfold sugerir_estrategia. cbn [tipo]. rewrite Hnenhum.
    by destruct (is_trained o).
Qed.

End FatosEstrategia.

Lemma tipo_da_estrategia_sugerida_witness :
  Inteligencia.tipo
    (Inteligencia.sugerir_estrategia
       Exemplos.cluster_zero Exemplos.tamanho_um Exemplos.sem_hora
       {| Inteligencia.is_trained := true |}
       [Exemplos.backup_ok "20240101_020000" 0 "data/backups/backup_20240101_020000.zip"]
       3 2 (Py.dias 8)) = Some "completo"
  ∧ Inteligencia.tipo
      (Inteligencia.sugerir_estrategia
         Exemplos.cluster_zero Exemplos.tamanho_um Exemplos.sem_hora
         {| Inteligencia.is_trained := false |}
         [Exemplos.backup_falho "20240101_020000" 0] 3 0 (Py.dias 8)) =
    Some "completo".
Proof.
  split.
  - apply (proj1 (tipo_da_estrategia_sugerida
                    Exemplos.cluster_zero Exemplos.tamanho_um Exemplos.sem_hora
                    {| Inteligencia.is_trained := true |}
                    [Exemplos.backup_ok "20240101_020000" 0
                       "data/backups/backup_20240101_020000.zip"]
                    3 2 (Py.dias 8))
             (Exemplos.backup_ok "20240101_020000" 0
                "data/backups/backup_20240101_020000.zip")).
    + apply list_elem_of_singleton. reflexivity.
    + reflexivity.
    + intros r Hr _. apply list_elem_of_singleton in Hr. subst r. reflexivity.
    + vm_compute. reflexivity.
  - apply (proj2 (tipo_da_estrategia_sugerida
                    Exemplos.cluster_zero Exemplos.tamanho_um Exemplos.sem_hora
                    {| Inteligencia.is_trained := false |}
                    [Exemplos.backup_falho "20240101_020000" 0] 3 0 (Py.dias 8))).
    repeat constructor.
Defined.

(** C2, as stated, fails on an empty table: untrained, on weekday 1, the
    suggested type is [incremental]; and so it is with a trained model
    whose cluster is 0, on any day. *)
Lemma sem_backup_anterior_sugere_incremental :
  Inteligencia.tipo
    (Inteligencia.sugerir_estrategia
       Exemplos.cluster_zero Exemplos.tamanho_um Exemplos.sem_hora
       {| Inteligencia.is_trained := false |} [] 3 1 0) = Some "incremental"
  ∧ Inteligencia.tipo
      (Inteligencia.sugerir_estrategia
         Exemplos.cluster_zero Exemplos.tamanho_um Exemplos.sem_hora
         {| Inteligencia.is_trained := true |} [] 3 0 0) = Some "incremental".
Proof. split; vm_compute; reflexivity. Qed.

(** ** The retention sweep *)

Section FatosLimpeza.
Import Tabela Backup.

Lemma removivel_delete f p path :
  removivel f path → removivel (delete p f) path.
Proof.
  intros (q & -> & Hq). exists q. split; [done|].
  rewrite lookup_delete. case_decide; [done|exact Hq].
Qed.

Lemma remover_artefatos_ok paths w :
  Forall (removivel (fs w)) paths →
  remover_artefatos paths w =
  (Py.Ok tt, {| backups := backups w;
                fs := sem_artefatos paths (fs w);
                escritas := escritas w |}).
Proof.
  revert w. induction paths as [|path paths IH]; intros w Hall.
  - by destruct w.
  - apply Forall_cons in Hall as [(p & -> & Hp) Hall].
    cbn [remover_artefatos]. unfold bind, remover_artefato, sem_artefatos.
    cbn [foldl]. destruct (fs w !! p) as [[|]|] eqn:E; [|done|].
    + rewrite IH; [done|]. cbn [fs].
      eapply Forall_impl; [exact Hall|]. intros ?. apply removivel_delete.
    + rewrite IH by done. by rewrite (delete_id _ _ E).
Qed.

Lemma remover_artefatos_backups paths w :
  backups (snd (remover_artefatos paths w)) = backups w
  ∧ escritas (snd (remover_artefatos paths w)) = escritas w.
Proof.
  revert w. induction paths as [|path paths IH]; intros w; [done|].
  cbn [remover_artefatos]. unfold bind, remover_artefato.
  destruct path as [p|]; [|done].
  destruct (fs w !! p) as [[|]|]; [|done|]; by rewrite !(proj1 (IH _)), !(proj2 (IH _)).
Qed.

Lemma sem_artefatos_lookup paths f p :
  sem_artefatos paths f !! p = if decide (Some p ∈ paths) then None else f !! p.
Proof.
  revert f. induction paths as [|path paths IH]; intros f.
  - unfold sem_artefatos. cbn [foldl]. case_decide as H; [|done].
    by apply elem_of_nil in H.
  - unfold sem_artefatos in *. cbn [foldl]. rewrite IH.
    destruct (decide (Some p ∈ paths)) as [Hin|Hnin].
    + rewrite decide_True; [done|]. by right.
    + destruct path as [q|].
      * destruct (decide (q = p)) as [->|Hne].
        -- rewrite decide_True by (by left). apply lookup_delete_eq.
        -- rewrite decide_False.
           ++ by apply lookup_delete_ne.
           ++ intros H. apply elem_of_cons in H as [[= ->]|H]; done.
      * rewrite decide_False; [done|].
        intros H. apply elem_of_cons in H as [?|H]; done.
Qed.

Lemma em_paths_antigos cutoff t p :
  Some p ∈ paths_antigos cutoff t ↔
  ∃ r, r ∈ t ∧ b_timestamp r < cutoff ∧ b_sucesso r = true ∧ b_path r = Some p.
Proof.
  unfold paths_antigos. rewrite list_elem_of_fmap. split.
  - intros (r & Hp & Hr). apply list_elem_of_filter in Hr as [[? ?] ?].
    exists r. by repeat split.
  - intros (r & Hr & Hts & Hs & Hp). exists r. split; [done|].
    apply list_elem_of_filter. by repeat split.
Qed.

(** C1, as the code has it.  When the archive of every successful row
    older than the cutoff is a path that is not a directory, one sweep
    succeeds; it deletes from the table every row older than the cutoff,
    successful or not, and leaves the other rows untouched, in their order;
    it removes the archives of the successful rows among the deleted ones
    and no other path; and it starts no backup write. *)
Theorem limpeza_apaga_todo_registro_antigo (cfg : Config) (agora : Z) (w : mundo) :
  (∀ r, r ∈ backups w → b_timestamp r < cutoff cfg agora → b_sucesso r = true →
        removivel (fs w) (b_path r)) →
  ∃ w', _limpar_backups_antigos cfg agora w = (Py.Ok tt, w')
    ∧ backups w' = delete_antigos (cutoff cfg agora) (backups w)
    ∧ (∀ r, r ∈ backups w' ↔ r ∈ backups w ∧ cutoff cfg agora <= b_timestamp r)
    ∧ (∀ p, (∃ r, r ∈ backups w ∧ b_timestamp r < cutoff cfg agora
                  ∧ b_sucesso r = true ∧ b_path r = Some p) →
            fs w' !! p = None)
    ∧ (∀ p, ¬ (∃ r, r ∈ backups w ∧ b_timestamp r < cutoff cfg agora
                    ∧ b_sucesso r = true ∧ b_path r = Some p) →
            fs w' !! p = fs w !! p)
    ∧ escritas w' = escritas w.
Proof.
  intros Hrem.
  assert (Hall : Forall (removivel (fs w))
                   (paths_antigos (cutoff cfg agora) (backups w))).
  { apply Forall_forall. intros path Hin. unfold paths_antigos in Hin.
    apply list_elem_of_fmap in Hin as (r & -> & Hr).
    apply list_elem_of_filter in Hr as [[? ?] ?]. by apply Hrem. }
  eexists. split.
  { unfold _limpar_backups_antigos, bind.
    rewrite (remover_artefatos_ok _ _ Hall). unfold com_backups. reflexivity. }
  cbn [backups fs escritas]. split; [done|]. split; [|split; [|split]].
  - intros r. unfold delete_antigos. rewrite list_elem_of_filter. split.
    + intros [? ?]. split; [done|lia].
    + intros [? ?]. split; [lia|done].
  - intros p Hp. rewrite sem_artefatos_lookup.
    rewrite decide_True; [done|]. by apply em_paths_antigos.
  - intros p Hp. rewrite sem_artefatos_lookup.
    rewrite decide_False; [done|]. by rewrite em_paths_antigos.
  - done.
Qed.

End FatosLimpeza.

Lemma limpeza_apaga_todo_registro_antigo_witness :
  ∃ w', Backup._limpar_backups_antigos config_padrao (Py.dias 32)
          Exemplos.mundo_antigo = (Py.Ok tt, w')
    ∧ Backup.backups w' =
      [Exemplos.backup_ok "20240131_020000" (Py.dias 31)
         "data/backups/backup_20240131_020000.zip"]
    ∧ Backup.fs w' !! "data/backups/backup_20240101_020000.zip" = None
    ∧ Backup.fs w' !! "data/backups/backup_20240131_020000.zip" = Some Backup.Arquivo.
Proof.
  destruct (limpeza_apaga_todo_registro_antigo
              config_padrao (Py.dias 32) Exemplos.mundo_antigo)
    as (w' & Hrun & Hb & _ & Hfora & Hfica & _).
  - intros r Hin Hts Hs. unfold Exemplos.mundo_antigo in Hin. cbn [Backup.backups] in Hin.
    rewrite !elem_of_cons, elem_of_nil in Hin.
    destruct Hin as [->|[->|[->|[]]]].
    + eexists. split; [reflexivity|]. vm_compute. discriminate.
    + discriminate Hs.
    + vm_compute in Hts. discriminate Hts.
  - exists w'. split; [exact Hrun|]. split; [rewrite Hb; vm_compute; reflexivity|].
    split.
    + apply Hfora.
      exists (Exemplos.backup_ok "20240101_020000" (Py.dias 1)
                "data/backups/backup_20240101_020000.zip").
      split; [apply list_elem_of_here|]. repeat split.
    + rewrite Hfica; [vm_compute; reflexivity|].
      intros (r & Hin & Hts & Hs & Hp).
      unfold Exemplos.mundo_antigo in Hin. cbn [Backup.backups] in Hin.
      rewrite !elem_of_cons, elem_of_nil in Hin.
      destruct Hin as [->|[->|[->|[]]]].
      * vm_compute in Hp. discriminate Hp.
      * discriminate Hs.
      * vm_compute in Hts. discriminate Hts.
Defined.

(** C1, as stated, fails on a failed attempt older than the cutoff: the
    sweep deletes its row. *)
Lemma limpeza_apaga_registro_sem_sucesso :
  Forall (fun r => Tabela.b_sucesso r = false) (Backup.backups Exemplos.mundo_so_falha)
  ∧ Backup.backups Exemplos.mundo_so_falha =
    [Exemplos.backup_falho "20240101_030000" (Py.dias 1 + Py.segundos 3600)]
  ∧ Backup._limpar_backups_antigos config_padrao (Py.dias 32) Exemplos.mundo_so_falha =
    (Py.Ok tt, {| Backup.backups := []; Backup.fs := ∅; Backup.escritas := [] |}).
Proof.
  split; [repeat constructor|]. split; [reflexivity|]. vm_compute. reflexivity.
Qed.

(** ** One backup attempt *)

Section FatosExecucao.
Import Tabela Backup.

Variable cfg : Config.
Variable strftime_id : Z -> string.
Variable determinar_targets :
  Inteligencia.estrategia -> list linha -> gmap string tipo_no ->
  Py.resultado (list string).
Variable tamanho_bytes : list string -> gmap string tipo_no -> Py.resultado Z.
Variable livre_bytes : gmap string tipo_no -> Z.
Variable copiar :
  string -> list string -> Inteligencia.estrategia -> gmap string tipo_no ->
  Py.resultado (Z * Z) * gmap string tipo_no.
Variable zipar :
  string -> string -> gmap string tipo_no -> Py.resultado Z * gmap string tipo_no.

Local Abbreviation executar :=
  (executar_backup cfg strftime_id determinar_targets tamanho_bytes livre_bytes
     copiar zipar).
Local Abbreviation tentar :=
  (tentar_backup cfg determinar_targets tamanho_bytes livre_bytes copiar zipar).

Lemma registrar_falha_run r backup_id e w :
  registrar_falha r backup_id e w =
  (Py.Raise (Py.BackupError ("Falha no backup: " +:+ Py.str e)),
   {| backups := insert_or_replace (linha_falha backup_id r e) (backups w);
      fs := fs w;
      escritas := escritas w |}).
Proof. reflexivity. Qed.

Lemma com_id_insert_or_replace l t :
  com_id (b_id l) (insert_or_replace l t) = [l].
Proof.
  unfold com_id, insert_or_replace. rewrite filter_app.
  rewrite (filter_cons_True (fun r => b_id r = b_id l) l []), filter_nil by done.
  replace (filter (fun r => b_id r = b_id l)
             (filter (fun r => b_id r ≠ b_id l) t)) with (@nil linha); [done|].
  induction t as [|x t IH]; [done|].
  rewrite (filter_cons (fun r => b_id r ≠ b_id l)). case_decide as Hx; [|exact IH].
  by rewrite filter_cons_False.
Qed.

Lemma com_id_delete_antigos id c t :
  com_id id (delete_antigos c t) = delete_antigos c (com_id id t).
Proof.
  unfold com_id, delete_antigos. rewrite !list_filter_filter.
  apply list_filter_iff. intros x. tauto.
Qed.

Lemma limpar_ok_backups agora w w' :
  _limpar_backups_antigos cfg agora w = (Py.Ok tt, w') →
  backups w' = delete_antigos (cutoff cfg agora) (backups w).
Proof.
  unfold _limpar_backups_antigos, bind.
  pose proof (remover_artefatos_backups
                (paths_antigos (cutoff cfg agora) (backups w)) w) as [Hb _].
  destruct (remover_artefatos _ w) as [[[]|e] w1]; [|discriminate].
  unfold com_backups. intros [= <-]. cbn [snd backups] in *. by rewrite Hb.
Qed.

(** The success path: the row of the attempt is in the table after the
    sweep, once, unless the sweep's own cutoff has reached it. *)
Lemma tentar_backup_ok estrategia r backup_id backup_path w dev w' :
  tentar estrategia r backup_id backup_path w = (Py.Ok dev, w') →
  cutoff cfg (t_limpeza r) <= t_registro r →
  ∃ l, com_id backup_id (backups w') = [l]
       ∧ b_sucesso l = true ∧ b_erro l = None ∧ r_sucesso dev = true.
Proof.
  intros Hrun Hcut. unfold tentar_backup, bind in Hrun.
  unfold _determinar_targets, _calcular_tamanho, _verificar_espaco in Hrun.
  destruct (determinar_targets estrategia (backups w) (fs w)) as [targets|];
    [|discriminate].
  destruct (tamanho_bytes targets (fs w)) as [total_bytes|]; [|discriminate].
  destruct (Py.geb _ _); cbn [negb] in Hrun; [|discriminate].
  unfold _executar_backup_sync in Hrun.
  destruct (copiar backup_path targets estrategia (fs w)) as [[[n b]|] fs1];
    [|discriminate].
  assert (Hfim : ∀ (res : resultado_copia) (w2 : mundo),
            backups w2 = backups w →
            (_registrar_backup
               (linha_sucesso backup_id r res
                  (Py.total_seconds (t_fim r - t_inicio r)) estrategia targets) ;;;
             _limpar_backups_antigos cfg (t_limpeza r) ;;;
             ret {| r_id := backup_id;
                    r_sucesso := true;
                    r_tamanho_mb := tamanho_mb res;
                    r_duracao := Py.total_seconds (t_fim r - t_inicio r);
                    r_caminho := caminho_final res;
                    r_arquivos := arquivos res |}) w2 = (Py.Ok dev, w') →
            ∃ l, com_id backup_id (backups w') = [l]
                 ∧ b_sucesso l = true ∧ b_erro l = None ∧ r_sucesso dev = true).
  { clear Hrun. intros res w2 Hb Hrun.
    unfold bind, _registrar_backup, com_backups in Hrun.
    destruct (_limpar_backups_antigos cfg (t_limpeza r) _) as [[[]|] w3] eqn:El;
      [|discriminate].
    apply limpar_ok_backups in El. cbn [backups] in El.
    unfold Backup.ret in Hrun. injection Hrun as <- <-.
    eexists. rewrite El, com_id_delete_antigos.
    rewrite (com_id_insert_or_replace
               (linha_sucesso backup_id r res _ estrategia targets)).
    unfold delete_antigos. rewrite filter_cons_True, filter_nil.
    - by repeat split.
    - cbn [linha_sucesso b_timestamp]. lia. }
  destruct (default true (Inteligencia.compressao estrategia)).
  - unfold _compactar_backup in Hrun. cbn [fs] in Hrun.
    destruct (zipar backup_path _ fs1) as [[bytes_z|] fs2].
    + cbn [tamanho_mb] in Hrun. destruct (Qeq_bool _ 0).
      * eapply Hfim; [|exact Hrun]. reflexivity.
      * eapply Hfim; [|exact Hrun]. reflexivity.
    + eapply Hfim; [|exact Hrun]. reflexivity.
  - unfold Backup.ret at 1 in Hrun. eapply Hfim; [|exact Hrun]. reflexivity.
Qed.

(** C4, as the code has it.  Whatever the strategy, the table, the files
    and the outcome of every step, a call of [executar_backup] whose final
    sweep has a cutoff that is not past the timestamp of the row just
    written leaves exactly one row with the id of the attempt: a successful
    one without error text when the call returns, a failed one with the
    text of the cause when it raises, the exception being the
    [BackupError] that names that cause. *)
Theorem executar_backup_grava_um_registro
    (estrategia : Inteligencia.estrategia) (r : relogio) (w : mundo) :
  cutoff cfg (t_limpeza r) <= t_registro r →
  ∃ l, com_id (strftime_id (t_id r)) (backups (snd (executar estrategia r w))) = [l]
    ∧ match fst (executar estrategia r w) with
      | Py.Ok ret => b_sucesso l = true ∧ b_erro l = None ∧ r_sucesso ret = true
      | Py.Raise e =>
          b_sucesso l = false
          ∧ ∃ causa, b_erro l = Some (Py.str causa)
                     ∧ e = Py.BackupError ("Falha no backup: " +:+ Py.str causa)
      end.
Proof.
  intros Hcut. unfold executar_backup, try_except.
  destruct (tentar estrategia r _ _ w) as [[ret|e] w1] eqn:Et.
  - cbn [fst snd]. by apply (tentar_backup_ok _ _ _ _ _ _ _ Et).
  - rewrite registrar_falha_run. cbn [fst snd backups].
    eexists. split.
    + apply (com_id_insert_or_replace (linha_falha (strftime_id (t_id r)) r e)).
    + split; [reflexivity|]. by exists e.
Qed.

(** C3.  When the free space is below twice the estimated size the call
    raises the [BackupError] for insufficient space, after recording the
    failed attempt, with the files as they were and no writing step
    started; and a call that started a writing step or changed a file had
    targets and a size for which the free space was at least twice the
    estimate. *)
Theorem sem_espaco_nada_e_escrito
    (estrategia : Inteligencia.estrategia) (r : relogio) (w : mundo) :
  (∀ targets total_bytes,
     determinar_targets estrategia (backups w) (fs w) = Py.Ok targets →
     tamanho_bytes targets (fs w) = Py.Ok total_bytes →
     (inject_Z (livre_bytes (fs w)) / MB < inject_Z total_bytes / MB * 2)%Q →
     executar estrategia r w =
     (Py.Raise (Py.BackupError "Falha no backup: Espaço em disco insuficiente"),
      {| backups :=
           insert_or_replace
             (linha_falha (strftime_id (t_id r)) r
                (Py.BackupError "Espaço em disco insuficiente"))
             (backups w);
         fs := fs w;
         escritas := escritas w |}))
  ∧ (escritas (snd (executar estrategia r w)) ≠ escritas w
     ∨ fs (snd (executar estrategia r w)) ≠ fs w →
     ∃ targets total_bytes,
       determinar_targets estrategia (backups w) (fs w) = Py.Ok targets
       ∧ tamanho_bytes targets (fs w) = Py.Ok total_bytes
       ∧ (inject_Z total_bytes / MB * 2 <= inject_Z (livre_bytes (fs w)) / MB)%Q).
Proof.
  split.
  - intros targets total_bytes Hdet Htam Hlivre.
    unfold executar_backup, try_except, tentar_backup, bind.
    unfold _determinar_targets, _calcular_tamanho, _verificar_espaco.
    rewrite Hdet, Htam. unfold Py.geb. apply ltb_true in Hlivre.
    rewrite Hlivre. cbn [negb]. unfold raise. by rewrite registrar_falha_run.
  - unfold executar_backup, try_except, tentar_backup, bind.
    unfold _determinar_targets, _calcular_tamanho, _verificar_espaco.
    destruct (determinar_targets estrategia (backups w) (fs w))
      as [targets|e] eqn:Hdet.
    2:{ rewrite registrar_falha_run. cbn [snd escritas fs]. intros [H|H]; done. }
    destruct (tamanho_bytes targets (fs w)) as [total_bytes|e] eqn:Htam.
    2:{ rewrite registrar_falha_run. cbn [snd escritas fs]. intros [H|H]; done. }
    unfold Py.geb.
    destruct (Py.ltb (inject_Z (livre_bytes (fs w)) / MB)
                (inject_Z total_bytes / MB * 2)) eqn:El.
    + cbn [negb]. unfold raise. rewrite registrar_falha_run.
      cbn [snd escritas fs]. intros [H|H]; done.
    + intros _. exists targets, total_bytes. apply ltb_false in El. done.
Qed.

End FatosExecucao.

Lemma executar_backup_grava_um_registro_witness :
  ∃ l, Tabela.com_id "20240201_020000"
         (Backup.backups (snd (Exemplos.executa (100 * Exemplos.MiB)))) = [l]
       ∧ Tabela.b_sucesso l = true
       ∧ Tabela.b_erro l = None.
Proof.
  destruct (executar_backup_grava_um_registro
              config_padrao Exemplos.id_fixo Exemplos.alvos_fixos Exemplos.dez_MiB
              (Exemplos.livre_fixo (100 * Exemplos.MiB))
              Exemplos.copia_simples Exemplos.zip_simples
              Exemplos.estrategia_incremental Exemplos.relogio_32_dias
              Exemplos.mundo_antigo) as (l & Hl & Hm).
  - vm_compute. discriminate.
  - exists l. split; [exact Hl|].
    change (Backup.executar_backup _ _ _ _ _ _ _ _ _ _)
      with (Exemplos.executa (100 * Exemplos.MiB)) in Hm.
    assert (He : ∃ dev, fst (Exemplos.executa (100 * Exemplos.MiB)) = Py.Ok dev)
      by (eexists; vm_compute; reflexivity).
    destruct He as [dev He]. rewrite He in Hm. tauto.
Defined.

Lemma sem_espaco_nada_e_escrito_witness :
  Exemplos.executa (15 * Exemplos.MiB) =
  (Py.Raise (Py.BackupError "Falha no backup: Espaço em disco insuficiente"),
   {| Backup.backups :=
        Tabela.insert_or_replace
          (Backup.linha_falha "20240201_020000" Exemplos.relogio_32_dias
             (Py.BackupError "Espaço em disco insuficiente"))
          (Backup.backups Exemplos.mundo_antigo);
      Backup.fs := Backup.fs Exemplos.mundo_antigo;
      Backup.escritas := [] |}).
Proof.
  unfold Exemplos.executa.
  apply (proj1 (sem_espaco_nada_e_escrito
                  config_padrao Exemplos.id_fixo Exemplos.alvos_fixos
                  Exemplos.dez_MiB (Exemplos.livre_fixo (15 * Exemplos.MiB))
                  Exemplos.copia_simples Exemplos.zip_simples
                  Exemplos.estrategia_incremental Exemplos.relogio_32_dias
                  Exemplos.mundo_antigo)
           ["/etc"] (10 * Exemplos.MiB)).
  - reflexivity.
  - reflexivity.
  - vm_compute. reflexivity.
Defined.

(** C4, as stated, fails with a retention of zero days: the call returns
    its success dict, and the sweep that ends it has deleted the row that
    the call had just written, so the table holds no row of the attempt. *)
Lemma sem_retencao_nenhum_registro :
  Exemplos.retornou_sucesso (fst Exemplos.executa_sem_retencao) = true
  ∧ Tabela.com_id "20240201_020000"
      (Backup.backups (snd Exemplos.executa_sem_retencao)) = []
  ∧ Backup.backups (snd Exemplos.executa_sem_retencao) = [].
Proof. repeat split; vm_compute; reflexivity. Qed.

(** * Further properties of the modelled code *)

(** ** The cooldown engine: admission, bookkeeping and status *)

Section MaisCooldown.
Import Cooldown.

Lemma should_alert_estado g alerta agora :
  snd (should_alert g alerta agora) = g.
Proof.
  unfold should_alert, cooldowns_getitem.
  destruct (cooldowns g !! get_tipo alerta) as [[|u s sev]|] eqn:E;
    [by destruct g| |done].
  destruct (Py.ltb _ _); by destruct g.
Qed.

Lemma should_alert_resposta g alerta agora :
  fst (should_alert g alerta agora) =
  match cooldowns g !! get_tipo alerta with
  | Some (Envio ultimo _ _) =>
      if Py.ltb (Py.total_seconds (agora - ultimo)) (cooldown_vigente g alerta)
      then (false,
            Py.int (cooldown_vigente g alerta - Py.total_seconds (agora - ultimo)))
      else (true, 0)
  | _ => (true, 0)
  end.
Proof.
  unfold should_alert, cooldowns_getitem.
  destruct (cooldowns g !! get_tipo alerta) as [[|u s sev]|] eqn:E; [done| |done].
  by destruct (Py.ltb _ _).
Qed.

Lemma int_nao_negativo x : (0 <= x)%Q → 0 <= Py.int x.
Proof.
  intros Hx. unfold Py.int. apply Z.quot_pos; [|lia].
  unfold Qle in Hx. cbn in Hx. lia.
Qed.

(** X1.  [should_alert] only reads: whatever the alert and the clock, and
    whether it admits or refuses, the engine's two dicts are afterwards
    what they were, no entry having been created by the look-ups. *)
Theorem should_alert_so_consulta (g : estado) (alerta : Alerta) (agora : Z) :
  snd (should_alert g alerta agora) = g.
Proof. apply should_alert_estado. Qed.

(** X2.  [should_alert] refuses exactly when a dispatch of the alert's
    type is on record and less than the current window has passed since;
    it then reports the whole seconds that remain, which are not negative.
    In every other case, a type never seen included, it admits with 0. *)
Theorem should_alert_recusa_so_dentro_da_janela
    (g : estado) (alerta : Alerta) (agora : Z) :
  (fst (fst (should_alert g alerta agora)) = false ↔
   ∃ ultimo sucesso sev,
     cooldowns g !! get_tipo alerta = Some (Envio ultimo sucesso sev)
     ∧ (Py.total_seconds (agora - ultimo) < cooldown_vigente g alerta)%Q)
  ∧ 0 <= snd (fst (should_alert g alerta agora))
  ∧ (fst (fst (should_alert g alerta agora)) = true →
     snd (fst (should_alert g alerta agora)) = 0).
Proof.
  rewrite should_alert_resposta.
  destruct (cooldowns g !! get_tipo alerta) as [[|u s sev]|] eqn:E.
  - split; [|done]. split; [done|]. by intros (? & ? & ? & [=] & _).
  - destruct (Py.ltb _ _) eqn:El; cbn [fst snd].
    + apply ltb_true in El. split; [|split; [|done]].
      * split; [|done]. intros _. by exists u, s, sev.
      * apply int_nao_negativo. lra.
    + apply ltb_false in El. split; [|done]. split; [done|].
      intros (u' & s' & sev' & [= <- <- <-] & Hlt). lra.
  - split; [|done]. split; [done|]. by intros (? & ? & ? & [=] & _).
Qed.

Lemma cooldowns_registrar g alerta sucesso t tipo :
  cooldowns (registrar_envio g alerta sucesso t) !! tipo =
  if decide (get_tipo alerta = tipo)
  then Some (Envio t sucesso (get_severidade alerta))
  else cooldowns g !! tipo.
Proof.
  unfold registrar_envio. cbn [cooldowns]. rewrite lookup_insert.
  by destruct (decide (get_tipo alerta = tipo)).
Qed.

(** X3.  A recorded dispatch closes the gate for its own window: after
    [registrar_envio] at instant [t0], [should_alert] for the same alert
    refuses at every instant less than the new window after [t0], and
    admits at every instant from the end of that window on. *)
Theorem registrar_envio_fecha_a_janela
    (g : estado) (alerta : Alerta) (sucesso : bool) (t0 agora : Z) :
  ((Py.total_seconds (agora - t0) <
    cooldown_vigente (registrar_envio g alerta sucesso t0) alerta)%Q →
   fst (fst (should_alert (registrar_envio g alerta sucesso t0) alerta agora)) = false)
  ∧ ((cooldown_vigente (registrar_envio g alerta sucesso t0) alerta <=
      Py.total_seconds (agora - t0))%Q →
     fst (should_alert (registrar_envio g alerta sucesso t0) alerta agora) = (true, 0)).
Proof.
  rewrite should_alert_resposta, cooldowns_registrar, decide_True by done.
  split; intros H.
  - apply ltb_true in H. by rewrite H.
  - apply ltb_false in H. by rewrite H.
Qed.

(** X4.  [registrar_envio] touches one type only: it records the instant,
    the outcome and the severity under the alert's type, and for every
    other type both the last dispatch on record and the adaptive window are
    what they were. *)
Theorem registrar_envio_so_mexe_no_tipo
    (g : estado) (alerta : Alerta) (sucesso : bool) (t : Z) (tipo : string) :
  cooldowns (registrar_envio g alerta sucesso t) !! get_tipo alerta =
    Some (Envio t sucesso (get_severidade alerta))
  ∧ (get_tipo alerta ≠ tipo →
     cooldowns (registrar_envio g alerta sucesso t) !! tipo = cooldowns g !! tipo
     ∧ adaptive_cooldowns (registrar_envio g alerta sucesso t) !! tipo =
       adaptive_cooldowns g !! tipo).
Proof.
  split.
  - by rewrite cooldowns_registrar, decide_True.
  - intros Hne. split.
    + by rewrite cooldowns_registrar, decide_False.
    + apply (janela_registrar_outro g alerta sucesso t tipo Hne).
Qed.

Lemma pot09_succ (n : nat) :
  ((9 # 10) ^ Z.of_nat (S n) == (9 # 10) ^ Z.of_nat n * (9 # 10))%Q.
Proof.
  rewrite Nat2Z.inj_succ. unfold Z.succ.
  rewrite Qpower_plus by discriminate. reflexivity.
Qed.

Lemma pot09_limites (n : nat) :
  (0 < (9 # 10) ^ Z.of_nat n)%Q ∧ ((9 # 10) ^ Z.of_nat n <= 1)%Q.
Proof.
  induction n as [|n [IH0 IH1]].
  - change ((9 # 10) ^ Z.of_nat 0)%Q with 1%Q. split; lra.
  - rewrite pot09_succ. split; nra.
Qed.

Lemma sucessos_seguidos g alerta instantes :
  (inject_Z (_get_base_cooldown (get_severidade alerta)) <=
   cooldown_vigente g alerta)%Q →
  (cooldown_vigente (registrar_varios g alerta true instantes) alerta ==
   Qmax (inject_Z (_get_base_cooldown (get_severidade alerta)))
        (cooldown_vigente g alerta * (9 # 10) ^ Z.of_nat (length instantes)))%Q.
Proof.
  revert g. induction instantes as [|t ts IH]; intros g Hbase.
  - unfold registrar_varios. cbn [foldl length].
    change ((9 # 10) ^ Z.of_nat 0)%Q with 1%Q.
    rewrite Q.max_r; [ring|]. lra.
  - unfold registrar_varios in *. cbn [foldl length].
    pose proof (cooldown_vigente_registrar g alerta true t) as Hpasso.
    cbn [negb] in Hpasso.
    set (base := inject_Z (_get_base_cooldown (get_severidade alerta))) in *.
    set (w := cooldown_vigente g alerta) in *.
    set (g1 := registrar_envio g alerta true t) in *.
    assert (Hb1 : (base <= cooldown_vigente g1 alerta)%Q).
    { rewrite Hpasso. apply Q.le_max_l. }
    rewrite (IH g1 Hb1), Hpasso.
    destruct (pot09_limites (length ts)) as [Hp0 Hp1].
    pose proof (pot09_succ (length ts)) as Hs.
    pose proof (base_cooldown_posQ (get_severidade alerta)) as Hpos.
    fold base in Hpos.
    destruct (Qlt_le_dec (w * (9 # 10)) base) as [Hlt|Hge].
    + assert (H1 : (Qmax base (w * (9 # 10)) == base)%Q)
        by (apply Q.max_l; lra).
      transitivity base.
      * transitivity (Qmax base (base * (9 # 10) ^ Z.of_nat (length ts))).
        -- apply Q.max_compat; [reflexivity|]. by rewrite H1.
        -- apply Q.max_l. nra.
      * symmetry. apply Q.max_l. rewrite Hs. nra.
    + assert (H1 : (Qmax base (w * (9 # 10)) == w * (9 # 10))%Q)
        by (by apply Q.max_r).
      apply Q.max_compat; [reflexivity|]. rewrite H1, Hs. ring.
Qed.

(** X5.  Successes decay the window geometrically down to the floor: from
    a window that is at least the base window of the alert's severity, [k]
    successful deliveries in a row leave the larger of the base and 0.9^k
    times the window. *)
Theorem janela_apos_sucessos
    (g : estado) (alerta : Alerta) (instantes : list Z) :
  (inject_Z (_get_base_cooldown (get_severidade alerta)) <=
   cooldown_vigente g alerta)%Q →
  (cooldown_vigente (registrar_varios g alerta true instantes) alerta ==
   Qmax (inject_Z (_get_base_cooldown (get_severidade alerta)))
        (cooldown_vigente g alerta * (9 # 10) ^ Z.of_nat (length instantes)))%Q.
Proof. apply sucessos_seguidos. Qed.

(** X6.  One failure is undone by four successes and by no fewer: from the
    base window, a failed delivery followed by four successful ones leaves
    the base window again, while after three the window is still wider
    than the base. *)
Theorem uma_falha_quatro_sucessos
    (g : estado) (alerta : Alerta) (t0 t1 t2 t3 t4 : Z) :
  (cooldown_vigente g alerta ==
   inject_Z (_get_base_cooldown (get_severidade alerta)))%Q →
  (cooldown_vigente
     (registrar_varios (registrar_envio g alerta false t0) alerta true
        [t1; t2; t3; t4]) alerta ==
   inject_Z (_get_base_cooldown (get_severidade alerta)))%Q
  ∧ (inject_Z (_get_base_cooldown (get_severidade alerta)) <
     cooldown_vigente
       (registrar_varios (registrar_envio g alerta false t0) alerta true
          [t1; t2; t3]) alerta)%Q.
Proof.
  intros Hbase.
  pose proof (base_cooldown_posQ (get_severidade alerta)) as Hpos.
  pose proof (cooldown_vigente_registrar g alerta false t0) as H0.
  cbn [negb] in H0.
  assert (Hb : (inject_Z (_get_base_cooldown (get_severidade alerta)) <=
                cooldown_vigente (registrar_envio g alerta false t0) alerta)%Q).
  { rewrite H0, Hbase. lra. }
  split.
  - rewrite (sucessos_seguidos _ alerta [t1; t2; t3; t4] Hb), H0.
    apply Q.max_l. rewrite Hbase.
    change ((9 # 10) ^ Z.of_nat (length [t1; t2; t3; t4]))%Q with (6561 # 10000)%Q.
    lra.
  - rewrite (sucessos_seguidos _ alerta [t1; t2; t3] Hb), H0.
    eapply Qlt_le_trans; [|apply Q.le_max_r]. rewrite Hbase.
    change ((9 # 10) ^ Z.of_nat (length [t1; t2; t3]))%Q with (729 # 1000)%Q.
    lra.
Qed.

End MaisCooldown.

Section MaisStatus.
Import Cooldown Status.

Lemma round_half_even_nao_negativo x :
  (0 <= x)%Q → 0 <= Inteligencia.round_half_even x.
Proof.
  intros Hx. unfold Inteligencia.round_half_even.
  assert (Hf : 0 <= Qfloor x).
  { change 0 with (Qfloor 0). by apply Qfloor_resp_le. }
  repeat match goal with
         | |- context [if ?b then _ else _] => destruct b
         end; lia.
Qed.

Lemma round_nd_nao_negativo x nd :
  (0 <= x)%Q → (0 <= Inteligencia.round_nd x nd)%Q.
Proof.
  intros Hx. unfold Inteligencia.round_nd.
  assert (Hp : 0 < 10 ^ Z.of_nat nd) by (apply Z.pow_pos_nonneg; lia).
  assert (HpQ : (0 < inject_Z (10 ^ Z.of_nat nd))%Q).
  { change 0%Q with (inject_Z 0). by rewrite <- Zlt_Qlt. }
  apply Qle_shift_div_l; [exact HpQ|]. rewrite Qmult_0_l.
  change 0%Q with (inject_Z 0). rewrite <- Zle_Qle.
  apply round_half_even_nao_negativo. apply Qmult_le_0_compat; lra.
Qed.

(** X7.  [get_status] reports a type exactly when a dispatch of it is on
    record; the entry carries the instant and outcome of that dispatch, and
    the remaining cooldown it shows is never negative, however long ago
    the dispatch was. *)
Theorem get_status_tipos_e_restante
    (g : estado) (agora : Z) (tipo : string) :
  (is_Some (get_status g agora !! tipo) ↔
   ∃ ultimo s sev, cooldowns g !! tipo = Some (Envio ultimo s sev))
  ∧ ∀ e, get_status g agora !! tipo = Some e →
         (0 <= cooldown_restante e)%Q
         ∧ ∃ sev, cooldowns g !! tipo = Some (Envio (ultimo_envio e) (sucesso e) sev).
Proof.
  unfold get_status. rewrite map_lookup_imap.
  destruct (cooldowns g !! tipo) as [[|u s sev]|] eqn:E; cbn.
  - split.
    + split; [by intros [? [=]]|by intros (? & ? & ? & [=])].
    + by intros e [=].
  - split.
    + split; [intros _; by exists u, s, sev|by intros _; eexists].
    + intros e [= <-]. cbn. split; [|by exists sev].
      apply round_nd_nao_negativo. apply Q.le_max_l.
  - split.
    + split; [by intros [? [=]]|by intros (? & ? & ? & [=])].
    + by intros e [=].
Qed.

End MaisStatus.

Lemma registrar_envio_fecha_a_janela_witness :
  fst (fst (Cooldown.should_alert Exemplos.apos_primeiro_registro
              (Exemplos.alerta_cpu "alta") (Py.segundos 299))) = false
  ∧ fst (Cooldown.should_alert Exemplos.apos_primeiro_registro
           (Exemplos.alerta_cpu "alta") (Py.segundos 300)) = (true, 0).
Proof.
  split.
  - apply (proj1 (registrar_envio_fecha_a_janela
                    Cooldown.novo (Exemplos.alerta_cpu "alta") true 0
                    (Py.segundos 299))).
    vm_compute. reflexivity.
  - apply (proj2 (registrar_envio_fecha_a_janela
                    Cooldown.novo (Exemplos.alerta_cpu "alta") true 0
                    (Py.segundos 300))).
    vm_compute. discriminate.
Defined.

Lemma registrar_envio_so_mexe_no_tipo_witness :
  Cooldown.cooldowns
    (Cooldown.registrar_envio Exemplos.apos_primeiro_registro
       (Exemplos.alerta_cpu "media") false 7) !! "disco_alto" =
  Cooldown.cooldowns Exemplos.apos_primeiro_registro !! "disco_alto"
  ∧ Cooldown.adaptive_cooldowns
      (Cooldown.registrar_envio Exemplos.apos_primeiro_registro
         (Exemplos.alerta_cpu "media") false 7) !! "disco_alto" =
    Cooldown.adaptive_cooldowns Exemplos.apos_primeiro_registro !! "disco_alto".
Proof.
  apply (proj2 (registrar_envio_so_mexe_no_tipo
                  Exemplos.apos_primeiro_registro (Exemplos.alerta_cpu "media")
                  false 7 "disco_alto")).
  vm_compute. discriminate.
Defined.

Lemma janela_apos_sucessos_witness :
  (Cooldown.cooldown_vigente
     (Cooldown.registrar_varios
        (Cooldown.registrar_envio Cooldown.novo (Exemplos.alerta_cpu "alta") false 0)
        (Exemplos.alerta_cpu "alta") true Exemplos.tres_instantes)
     (Exemplos.alerta_cpu "alta") == 32805 # 100)%Q.
Proof.
  rewrite (janela_apos_sucessos
             (Cooldown.registrar_envio Cooldown.novo (Exemplos.alerta_cpu "alta")
                false 0)
             (Exemplos.alerta_cpu "alta") Exemplos.tres_instantes).
  - vm_compute. reflexivity.
  - vm_compute. discriminate.
Defined.

Lemma uma_falha_quatro_sucessos_witness :
  (Cooldown.cooldown_vigente
     (Cooldown.registrar_varios
        (Cooldown.registrar_envio Cooldown.novo (Exemplos.alerta_cpu "critica")
           false 0)
        (Exemplos.alerta_cpu "critica") true [1; 2; 3; 4]%Z)
     (Exemplos.alerta_cpu "critica") == 60)%Q.
Proof.
  assert (H : (Cooldown.cooldown_vigente Cooldown.novo
                 (Exemplos.alerta_cpu "critica") ==
               inject_Z (Cooldown._get_base_cooldown
                           (get_severidade (Exemplos.alerta_cpu "critica"))))%Q)
    by reflexivity.
  exact (proj1 (uma_falha_quatro_sucessos
                  Cooldown.novo (Exemplos.alerta_cpu "critica") 0 1 2 3 4 H)).
Defined.

(** ** The threshold rules *)

Section MaisSistema.
Import Sistema.

Variable formatar_1f : Q -> string.
Variable formatar_n : Q -> string.

Local Abbreviation verifica := (verificar_alertas formatar_1f formatar_n).

(** X15.  [verificar_alertas] is silent exactly when every reading is
    within bounds: it returns no alert if and only if the processor, memory
    and disk percentages (0 when missing) do not exceed their thresholds
    and no zombie process is counted; it never returns more than four
    alerts, nor two of one type. *)
Theorem verificar_alertas_vazio_sse_dentro_dos_limites
    (cfg : limiares) (metrics : leitura) :
  (verifica cfg metrics = [] ↔
   (default 0 (cpu_percent metrics) <= CPU_ALERT_THRESHOLD cfg)%Q
   ∧ (default 0 (memory_percent metrics) <= MEMORY_ALERT_THRESHOLD cfg)%Q
   ∧ (default 0 (disk_total_percent metrics) <= DISK_ALERT_THRESHOLD cfg)%Q
   ∧ (default 0 (processes_zombie metrics) <= 0)%Q)
  ∧ (length (verifica cfg metrics) <= 4)%nat
  ∧ NoDup (map a_tipo (verifica cfg metrics)).
Proof.
  unfold verificar_alertas, Py.gtb.
  destruct (Py.ltb (CPU_ALERT_THRESHOLD cfg) _) eqn:E1;
    destruct (Py.ltb (MEMORY_ALERT_THRESHOLD cfg) _) eqn:E2;
    destruct (Py.ltb (DISK_ALERT_THRESHOLD cfg) _) eqn:E3;
    destruct (Py.ltb 0 (default 0%Q (processes_zombie metrics))) eqn:E4;
    rewrite ?ltb_true, ?ltb_false in *;
    (split; [split; [intros H; try discriminate H; tauto
                    |intros (? & ? & ? & ?); try reflexivity; exfalso; lra]
            |split; [cbn; lia|]]);
    cbn [map app]; apply (bool_decide_unpack _); vm_compute; exact I.
Qed.

(** X16.  Every alert that a percentage rule raises carries the reading
    and the threshold it broke, the reading being strictly above the
    threshold, and is of severity [alta] exactly when the reading is above
    90 for the processor and above 95 for memory and disk, [media]
    otherwise; the zombie alert is always [baixa] and has no threshold. *)
Theorem alertas_de_limiar_bem_formados
    (cfg : limiares) (metrics : leitura) (a : Alerta) :
  a ∈ verifica cfg metrics →
  (a_tipo a = Some "processos_zombie"
   ∧ a_severidade a = Some "baixa" ∧ a_threshold a = None
   ∧ ∃ n, a_valor a = Some n ∧ (0 < n)%Q)
  ∨ (∃ v th corte,
       a_valor a = Some v ∧ a_threshold a = Some th ∧ (th < v)%Q
       ∧ a_severidade a = Some (if Py.gtb v corte then "alta" else "media")
       ∧ ((a_tipo a = Some "cpu_alta" ∧ corte = 90%Q
           ∧ th = CPU_ALERT_THRESHOLD cfg)
          ∨ (a_tipo a = Some "memoria_alta" ∧ corte = 95%Q
             ∧ th = MEMORY_ALERT_THRESHOLD cfg)
          ∨ (a_tipo a = Some "disco_alto" ∧ corte = 95%Q
             ∧ th = DISK_ALERT_THRESHOLD cfg))).
Proof.
  unfold verificar_alertas.
  destruct (Py.gtb (default 0%Q (cpu_percent metrics)) (CPU_ALERT_THRESHOLD cfg))
    eqn:E1;
    destruct (Py.gtb (default 0%Q (memory_percent metrics))
                (MEMORY_ALERT_THRESHOLD cfg)) eqn:E2;
    destruct (Py.gtb (default 0%Q (disk_total_percent metrics))
                (DISK_ALERT_THRESHOLD cfg)) eqn:E3;
    destruct (Py.gtb (default 0%Q (processes_zombie metrics)) 0) eqn:E4;
    cbn [app]; rewrite ?elem_of_cons, elem_of_nil; intros H;
    repeat match type of H with
           | _ ∨ _ => destruct H as [H|H]
           | False => destruct H
           end;
    subst a; cbn [a_tipo a_severidade a_threshold a_valor];
    unfold Py.gtb in E1, E2, E3, E4; rewrite ?ltb_true in *;
    first
      [ left; repeat split; eexists; split; [reflexivity|assumption]
      | right; do 3 eexists; split; [reflexivity|]; split; [reflexivity|];
        split; [eassumption|]; split; [reflexivity|];
        first [ left; by repeat split
              | right; left; by repeat split
              | right; right; by repeat split ] ].
Qed.

End MaisSistema.

Lemma alertas_de_limiar_bem_formados_witness :
  Sistema.verificar_alertas Exemplos.sem_formato Exemplos.sem_formato
    Sistema.limiares_padrao Amostras.leitura_cpu_96 = [Amostras.alerta_cpu_96]
  ∧ ∃ v th corte,
      a_valor Amostras.alerta_cpu_96 = Some v
      ∧ a_threshold Amostras.alerta_cpu_96 = Some th
      ∧ (th < v)%Q
      ∧ a_severidade Amostras.alerta_cpu_96 =
        Some (if Py.gtb v corte then "alta" else "media").
Proof.
  split; [vm_compute; reflexivity|].
  destruct (alertas_de_limiar_bem_formados
              Exemplos.sem_formato Exemplos.sem_formato
              Sistema.limiares_padrao Amostras.leitura_cpu_96
              Amostras.alerta_cpu_96)
    as [(Hz & _)|(v & th & corte & Hv & Hth & Hlt & Hsev & _)].
  - apply list_elem_of_singleton. vm_compute. reflexivity.
  - discriminate Hz.
  - by exists v, th, corte.
Defined.

(** ** The failure predictor: trained branch and training labels *)

Section MaisPreditor.
Import Preditor.

Variable predict_proba : metricas -> Z -> Py.resultado Q.
Variable formatar_percentual : Q -> string.

Lemma prever_falha_resultado p metrics agora :
  ∃ d, prever_falha predict_proba p metrics agora = Py.Ok d
       ∧ probabilidade d = 0%Q
       ∧ nivel_risco d = (if is_trained p then "erro" else "desconhecido").
Proof.
  unfold prever_falha, corpo_treinado. destruct (is_trained p); cbn [negb].
  - destruct (predict_proba metrics agora); by eexists.
  - by eexists.
Qed.

(** X17.  [prever_falha] never raises and never reports a risk: whatever
    the state of the model, the snapshot and the outcome of the model's
    own prediction, it returns a dict whose probability is 0; with a
    trained model the dict is the error one, since the dict of the normal
    return names a variable that does not exist. *)
Theorem prever_falha_sempre_devolve_zero
    (p : estado) (metrics : metricas) (agora : Z) :
  ∃ d, prever_falha predict_proba p metrics agora = Py.Ok d
       ∧ probabilidade d = 0%Q
       ∧ nivel_risco d = (if is_trained p then "erro" else "desconhecido").
Proof. apply prever_falha_resultado. Qed.

(** X18.  With a threshold that is not negative the prediction block of
    the monitoring loop adds no alert, trained model or not: the list of
    alerts comes out of it as it went in. *)
Theorem bloco_predicao_nunca_alerta
    (cfg : Config) (p : estado) (metrics : metricas) (alertas : list Alerta)
    (agora : Z) :
  (0 <= PREDICTION_THRESHOLD cfg)%Q →
  bloco_predicao predict_proba formatar_percentual cfg p metrics alertas agora =
  Py.Ok alertas.
Proof.
  intros Hth. unfold bloco_predicao.
  destruct (ENABLE_ML cfg); [|reflexivity].
  destruct (prever_falha_resultado p metrics agora) as (d & -> & Hd & _).
  rewrite Hd. unfold Py.gtb. apply ltb_false in Hth. by rewrite Hth.
Qed.

End MaisPreditor.

Lemma bloco_predicao_nunca_alerta_witness :
  Preditor.bloco_predicao Exemplos.proba_alta Exemplos.sem_formato config_padrao
    {| Preditor.is_trained := true |} Exemplos.metricas_cpu [] 0 = Py.Ok [].
Proof.
  apply (bloco_predicao_nunca_alerta
           Exemplos.proba_alta Exemplos.sem_formato config_padrao
           {| Preditor.is_trained := true |} Exemplos.metricas_cpu [] 0).
  vm_compute. discriminate.
Defined.

Section MaisTreino.
Import Treino.

(** X19.  The target column has one label per reading, each 0 or 1; a
    label is 1 only at an index that has 288 readings after it and whose
    window of 288 readings, itself included, holds at least five above 95.
    So the last 288 readings, and every reading of a history of at most 288,
    are labelled 0. *)
Theorem falha_futura_rotulos (cpu : list Q) (i : nat) (x : Z) :
  length (falha_futura cpu) = length cpu
  ∧ (falha_futura cpu !! i = Some x →
     x = 0 ∨ (x = 1 ∧ (i + 288 < length cpu)%nat
              ∧ (5 <= leituras_criticas cpu i)%nat)).
Proof.
  unfold falha_futura. split.
  - by rewrite length_map, length_seq.
  - rewrite list_lookup_fmap, fmap_Some. intros (j & Hj & ->).
    apply lookup_seq in Hj as [-> _]. change (0 + i)%nat with i.
    destruct (Nat.ltb_spec i (length cpu - 288)) as [E1|E1]; [|by left].
    destruct (Nat.leb_spec 5 (leituras_criticas cpu i)) as [E2|E2]; [|by left].
    right. cbn [andb]. repeat split; lia.
Qed.

End MaisTreino.

Lemma falha_futura_rotulos_witness :
  Treino.falha_futura Amostras.cpu_sempre_96 !! 0%nat = Some 1
  ∧ Treino.falha_futura Amostras.cpu_sempre_96 !! 12%nat = Some 0
  ∧ (5 <= Treino.leituras_criticas Amostras.cpu_sempre_96 0)%nat.
Proof.
  assert (H : Treino.falha_futura Amostras.cpu_sempre_96 !! 0%nat = Some 1)
    by (vm_compute; reflexivity).
  split; [exact H|]. split; [vm_compute; reflexivity|].
  destruct (proj2 (falha_futura_rotulos Amostras.cpu_sempre_96 0%nat 1) H)
    as [H0|(_ & _ & H5)]; [discriminate H0|exact H5].
Defined.

(** ** The backup strategy *)

Section MaisEstrategia.
Import Tabela Inteligencia.

Variable cluster_predict : list Q -> Z.
Variable tamanho_predict : list Q -> Q.
Variable hora_menor_duracao : list linha -> option Z.

Local Abbreviation sugere :=
  (sugerir_estrategia cluster_predict tamanho_predict hora_menor_duracao).

Lemma cluster_tipo_conhecido cluster :
  cluster_tipo cluster ∈ ["completo"; "incremental"; "diferencial"].
Proof.
  unfold cluster_tipo.
  repeat match goal with
         | |- context [?a =? ?b] => destruct (a =? b)
         end;
    repeat first [apply list_elem_of_here | apply list_elem_of_further].
Qed.

(** X20.  The suggested strategy is always well formed: its type is one
    of [completo], [incremental] and [diferencial], whatever cluster the
    model predicts; compression is on; the priority is [alta] exactly for
    [completo]; and the confidence is 0.85 with a trained model and 0.6
    without. *)
Theorem estrategia_sugerida_bem_formada
    (o : estado) (backups : list linha) (hora_atual dia_semana agora : Z) :
  ∃ t, tipo (sugere o backups hora_atual dia_semana agora) = Some t
       ∧ t ∈ ["completo"; "incremental"; "diferencial"]
       ∧ compressao (sugere o backups hora_atual dia_semana agora) = Some true
       ∧ prioridade (sugere o backups hora_atual dia_semana agora) =
         Some (if decide (t = "completo") then "alta" else "media")
       ∧ confianca (sugere o backups hora_atual dia_semana agora) =
         Some (if is_trained o then 85 # 100 else 6 # 10)%Q.
Proof.
  unfold sugerir_estrategia. cbn [tipo compressao prioridade confianca].
  eexists. split; [reflexivity|].
  pose proof (cluster_tipo_conhecido (cluster_predict
    (fit_transform_uma_linha [inject_Z hora_atual; inject_Z dia_semana; 100%Q; 60%Q])))
    as Hc.
  destruct (is_trained o); cbn [negb];
    repeat match goal with
           | |- context [Py.gtb ?a ?b] => destruct (Py.gtb a b)
           | |- context [?a =? ?b] => destruct (a =? b)
           end;
    try (split;
         [repeat first [apply list_elem_of_here | apply list_elem_of_further]
         |by repeat split]).
  split; [exact Hc|]. split; [done|]. split; [|done].
  rewrite !elem_of_cons, elem_of_nil in Hc.
  destruct Hc as [->|[->|[->|[]]]]; reflexivity.
Qed.

(** X21.  With a trained model the suggested type does not depend on the
    hour or on the weekday: the feature row is scaled on its own, so the
    cluster model always sees the zero row, and two calls on the same
    table at the same instant suggest the same type at any hour of any
    day. *)
Theorem tipo_treinado_ignora_hora_e_dia
    (o : estado) (backups : list linha) (h1 d1 h2 d2 agora : Z) :
  is_trained o = true →
  tipo (sugere o backups h1 d1 agora) = tipo (sugere o backups h2 d2 agora).
Proof.
  intros Ht. unfold sugerir_estrategia. cbn [tipo]. by rewrite Ht.
Qed.


End MaisEstrategia.

Lemma tipo_treinado_ignora_hora_e_dia_witness :
  Inteligencia.tipo
    (Inteligencia.sugerir_estrategia
       Exemplos.cluster_zero Exemplos.tamanho_um Exemplos.sem_hora
       {| Inteligencia.is_trained := true |} [] 3 0 0) =
  Inteligencia.tipo
    (Inteligencia.sugerir_estrategia
       Exemplos.cluster_zero Exemplos.tamanho_um Exemplos.sem_hora
       {| Inteligencia.is_trained := true |} [] 23 6 0).
Proof.
  apply (tipo_treinado_ignora_hora_e_dia
           Exemplos.cluster_zero Exemplos.tamanho_um Exemplos.sem_hora
           {| Inteligencia.is_trained := true |} [] 3 0 23 6 0).
  reflexivity.
Defined.


(** ** The targets of a backup *)

Section MaisAlvos.
Import Tabela Alvos.

Variable modificados_desde : string -> Z -> list string.

Local Abbreviation determina := (_determinar_targets modificados_desde).
Local Abbreviation brutos := (alvos_brutos modificados_desde).

Lemma determinar_targets_membros estrategia backups x :
  x ∈ determina estrategia backups ↔ x ∈ brutos estrategia backups.
Proof.
  unfold _determinar_targets. rewrite elem_of_elements, elem_of_list_to_set. done.
Qed.

(** X23.  The targets never repeat a path; for type [completo] they are
    the four fixed roots whatever the history; and for a type that is none
    of [completo], [incremental] and [diferencial] there is no target at
    all. *)
Theorem alvos_sem_repeticao_e_por_tipo
    (estrategia : Inteligencia.estrategia) (backups : list linha) (x : string) :
  NoDup (determina estrategia backups)
  ∧ (Inteligencia.tipo estrategia = Some "completo" →
     (x ∈ determina estrategia backups ↔
      x ∈ ["/etc"; "/home"; "/var/www"; "/opt"]))
  ∧ (default "incremental" (Inteligencia.tipo estrategia)
       ∉ ["completo"; "incremental"; "diferencial"] →
     determina estrategia backups = []).
Proof.
  split; [apply NoDup_elements|]. split.
  - intros Ht. rewrite determinar_targets_membros. unfold alvos_brutos.
    by rewrite Ht.
  - intros Hfora. unfold _determinar_targets, alvos_brutos.
    repeat match goal with
           | |- context [String.eqb ?a ?k] =>
               destruct (String.eqb_spec a k) as [Heq|_];
               [exfalso; apply Hfora; rewrite Heq;
                repeat first [apply list_elem_of_here | apply list_elem_of_further]|]
           end.
    reflexivity.
Qed.

(** X24.  An incremental backup, which is also what a strategy without
    type gets, covers [/etc] and [/home] whole while the table has no
    successful backup, and afterwards exactly the files under those two
    roots modified after the latest successful backup. *)
Theorem alvos_do_incremental
    (estrategia : Inteligencia.estrategia) (backups : list linha) (x : string) :
  default "incremental" (Inteligencia.tipo estrategia) = "incremental" →
  (Forall (fun r => b_sucesso r = false) backups →
   (x ∈ determina estrategia backups ↔ x ∈ ["/etc"; "/home"]))
  ∧ (∀ u, u ∈ backups → b_sucesso u = true →
          (∀ r, r ∈ backups → b_sucesso r = true →
                b_timestamp r <= b_timestamp u) →
          (x ∈ determina estrategia backups ↔
           x ∈ modificados_desde "/etc" (b_timestamp u)
           ∨ x ∈ modificados_desde "/home" (b_timestamp u))).
Proof.
  intros Ht. split.
  - intros Hnenhum. apply ultimo_sucesso_None in Hnenhum.
    rewrite determinar_targets_membros. unfold alvos_brutos.
    by rewrite Ht, Hnenhum.
  - intros u Hin Hs Hmax.
    destruct (ultimo_sucesso_timestamp backups u Hin Hs Hmax) as (y & Hy & Hts).
    rewrite determinar_targets_membros. unfold alvos_brutos.
    rewrite Ht, Hy, Hts. cbn [String.eqb Ascii.eqb Bool.eqb flat_map].
    rewrite app_nil_r, elem_of_app. done.
Qed.

End MaisAlvos.

Lemma alvos_do_incremental_witness :
  "/home" ∈ Alvos._determinar_targets Amostras.um_arquivo_por_raiz
              Exemplos.estrategia_incremental
              [Exemplos.backup_falho "20240101_030000" (Py.dias 1)]
  ∧ "/etc/novo.conf" ∈ Alvos._determinar_targets Amostras.um_arquivo_por_raiz
                         Exemplos.estrategia_incremental
                         [Exemplos.backup_ok "20240101_020000" (Py.dias 1)
                            "data/backups/backup_20240101_020000.zip"].
Proof.
  split.
  - destruct (alvos_do_incremental Amostras.um_arquivo_por_raiz
                Exemplos.estrategia_incremental
                [Exemplos.backup_falho "20240101_030000" (Py.dias 1)]
                "/home" eq_refl) as [Hsem _].
    apply Hsem.
    + repeat constructor.
    + apply list_elem_of_further, list_elem_of_here.
  - destruct (alvos_do_incremental Amostras.um_arquivo_por_raiz
                Exemplos.estrategia_incremental
                [Exemplos.backup_ok "20240101_020000" (Py.dias 1)
                   "data/backups/backup_20240101_020000.zip"]
                "/etc/novo.conf" eq_refl) as [_ Hcom].
    apply (Hcom (Exemplos.backup_ok "20240101_020000" (Py.dias 1)
                   "data/backups/backup_20240101_020000.zip")).
    + apply list_elem_of_here.
    + reflexivity.
    + intros r Hin _. apply list_elem_of_singleton in Hin. subst r. reflexivity.
    + left. apply list_elem_of_here.
Defined.

(** ** Restoring a backup *)

Section MaisRestauro.
Import Tabela Backup Restauracao.

Variable cfg : Config.
Variable strftime_id : Z -> string.
Variable determinar_targets :
  Inteligencia.estrategia -> list linha -> gmap string tipo_no ->
  Py.resultado (list string).
Variable tamanho_bytes : list string -> gmap string tipo_no -> Py.resultado Z.
Variable livre_bytes : gmap string tipo_no -> Z.
Variable copiar :
  string -> list string -> Inteligencia.estrategia -> gmap string tipo_no ->
  Py.resultado (Z * Z) * gmap string tipo_no.
Variable zipar :
  string -> string -> gmap string tipo_no -> Py.resultado Z * gmap string tipo_no.
Variable restaurar_arquivos :
  string -> string -> gmap string tipo_no -> Py.resultado unit * gmap string tipo_no.

Local Abbreviation executar :=
  (executar_backup cfg strftime_id determinar_targets tamanho_bytes livre_bytes
     copiar zipar).
Local Abbreviation tentar :=
  (tentar_backup cfg determinar_targets tamanho_bytes livre_bytes copiar zipar).
Local Abbreviation restaurar := (restaurar_backup restaurar_arquivos).

(** X25.  Restoring an id that has no successful row, be it unknown or
    the id of a failed attempt, raises [BackupError] saying the backup was
    not found, before any file is touched. *)
Theorem restaurar_sem_registro_com_sucesso
    (backup_id destino : string) (agora : Z) (w : mundo) :
  (∀ r, r ∈ backups w → b_id r = backup_id → b_sucesso r = false) →
  restaurar backup_id destino agora w =
  (Py.Raise (Py.BackupError ("Backup " +:+ backup_id +:+ " não encontrado")), w).
Proof.
  intros Hsem. unfold restaurar_backup.
  destruct (linhas_restauraveis backup_id (backups w)) as [|row resto] eqn:E;
    [done|].
  exfalso. assert (Hrow : row ∈ linhas_restauraveis backup_id (backups w))
    by (rewrite E; apply list_elem_of_here).
  apply list_elem_of_filter in Hrow as [[Hid Hs] Hin].
  specialize (Hsem row Hin Hid). congruence.
Qed.

Lemma limpar_raise_backups agora w e w' :
  _limpar_backups_antigos cfg agora w = (Py.Raise e, w') →
  backups w' = backups w.
Proof.
  unfold _limpar_backups_antigos, bind.
  pose proof (remover_artefatos_backups
                (paths_antigos (cutoff cfg agora) (backups w)) w) as [Hb _].
  destruct (remover_artefatos _ w) as [[[]|e1] w1]; [discriminate|].
  intros [= _ <-]. exact Hb.
Qed.

(** What the [try] block leaves in the table: on return the success row,
    inserted and then swept; on an exception either nothing or the
    success row. *)
Lemma tentar_backup_forma estrategia r backup_id backup_path w res w' :
  tentar estrategia r backup_id backup_path w = (res, w') →
  match res with
  | Py.Ok dev =>
      ∃ l, backups w' =
           delete_antigos (cutoff cfg (t_limpeza r))
             (insert_or_replace l (backups w))
           ∧ b_id l = backup_id ∧ b_sucesso l = true
           ∧ b_timestamp l = t_registro r
           ∧ b_path l = Some (r_caminho dev)
           ∧ r_id dev = backup_id ∧ r_sucesso dev = true
  | Py.Raise _ =>
      backups w' = backups w
      ∨ ∃ l, b_id l = backup_id ∧ backups w' = insert_or_replace l (backups w)
  end.
Proof.
  intros Hrun. unfold tentar_backup, bind in Hrun.
  unfold _determinar_targets, _calcular_tamanho, _verificar_espaco in Hrun.
  destruct (determinar_targets estrategia (backups w) (fs w)) as [targets|];
    [|injection Hrun as <- <-; by left].
  destruct (tamanho_bytes targets (fs w)) as [total_bytes|];
    [|injection Hrun as <- <-; by left].
  destruct (Py.geb _ _); cbn [negb] in Hrun;
    [|injection Hrun as <- <-; by left].
  unfold _executar_backup_sync in Hrun.
  destruct (copiar backup_path targets estrategia (fs w)) as [[[n b]|] fs1];
    [|injection Hrun as <- <-; by left].
  assert (Hfim : ∀ (rc : resultado_copia) (w2 : mundo),
            backups w2 = backups w →
            (_registrar_backup
               (linha_sucesso backup_id r rc
                  (Py.total_seconds (t_fim r - t_inicio r)) estrategia targets) ;;;
             _limpar_backups_antigos cfg (t_limpeza r) ;;;
             ret {| r_id := backup_id;
                    r_sucesso := true;
                    r_tamanho_mb := tamanho_mb rc;
                    r_duracao := Py.total_seconds (t_fim r - t_inicio r);
                    r_caminho := caminho_final rc;
                    r_arquivos := arquivos rc |}) w2 = (res, w') →
            match res with
            | Py.Ok dev =>
                ∃ l, backups w' =
                     delete_antigos (cutoff cfg (t_limpeza r))
                       (insert_or_replace l (backups w))
                     ∧ b_id l = backup_id ∧ b_sucesso l = true
                     ∧ b_timestamp l = t_registro r
                     ∧ b_path l = Some (r_caminho dev)
                     ∧ r_id dev = backup_id ∧ r_sucesso dev = true
            | Py.Raise _ =>
                backups w' = backups w
                ∨ ∃ l, b_id l = backup_id
                       ∧ backups w' = insert_or_replace l (backups w)
            end).
  { clear Hrun. intros rc w2 Hb Hrun.
    unfold bind, _registrar_backup, com_backups in Hrun.
    destruct (_limpar_backups_antigos cfg (t_limpeza r) _) as [[[]|e1] w3] eqn:El.
    - apply limpar_ok_backups in El. cbn [backups] in El.
      unfold Backup.ret in Hrun. injection Hrun as <- <-.
      eexists. rewrite El, Hb. by repeat split.
    - apply limpar_raise_backups in El. cbn [backups] in El.
      injection Hrun as <- <-. right.
      exists (linha_sucesso backup_id r rc
                (Py.total_seconds (t_fim r - t_inicio r)) estrategia targets).
      rewrite El, Hb. by split. }
  destruct (default true (Inteligencia.compressao estrategia)).
  - unfold _compactar_backup in Hrun. cbn [fs] in Hrun.
    destruct (zipar backup_path _ fs1) as [[bytes_z|] fs2].
    + cbn [tamanho_mb] in Hrun. destruct (Qeq_bool _ 0).
      * eapply Hfim; [|exact Hrun]. reflexivity.
      * eapply Hfim; [|exact Hrun]. reflexivity.
    + eapply Hfim; [|exact Hrun]. reflexivity.
  - unfold Backup.ret at 1 in Hrun. eapply Hfim; [|exact Hrun]. reflexivity.
Qed.

Lemma linhas_restauraveis_com_id backup_id t :
  linhas_restauraveis backup_id t =
  filter (fun r => b_sucesso r = true) (com_id backup_id t).
Proof.
  unfold linhas_restauraveis, com_id. rewrite list_filter_filter.
  apply list_filter_iff. intros x. tauto.
Qed.

(** X26.  A backup that [executar_backup] returned can be restored: when
    the call returns and its sweep has not reached the row just written,
    [restaurar_backup] with the returned id finds the row and restores from
    the very path that the call returned, succeeding or failing as that
    extraction does, and never with not found. *)
Theorem restaurar_apos_executar
    (estrategia : Inteligencia.estrategia) (r : relogio) (w w1 : mundo)
    (dev : retorno) (destino : string) (agora : Z) :
  executar estrategia r w = (Py.Ok dev, w1) →
  cutoff cfg (t_limpeza r) <= t_registro r →
  restaurar (r_id dev) destino agora w1 =
  (match fst (restaurar_arquivos (r_caminho dev) destino (fs w1)) with
   | Py.Ok _ =>
       Py.Ok {| rs_sucesso := true;
                rs_backup_id := r_id dev;
                rs_destino := destino;
                rs_timestamp := agora |}
   | Py.Raise e =>
       Py.Raise (Py.BackupError ("Falha na restauração: " +:+ Py.str e))
   end,
   {| backups := backups w1;
      fs := snd (restaurar_arquivos (r_caminho dev) destino (fs w1));
      escritas := escritas w1 |}).
Proof.
  intros Hexec Hcut. unfold executar_backup, try_except in Hexec.
  destruct (tentar estrategia r _ _ w) as [[dev1|e] w2] eqn:Et.
  2:{ rewrite registrar_falha_run in Hexec. discriminate Hexec. }
  injection Hexec as -> ->.
  apply tentar_backup_forma in Et
    as (l & Hb & Hid & Hs & Hts & Hpath & Hrid & _).
  assert (Hl : linhas_restauraveis (r_id dev) (backups w1) = [l]).
  { rewrite linhas_restauraveis_com_id, Hrid, Hb.
    rewrite (com_id_delete_antigos strftime_id copiar zipar).
    rewrite <- Hid at 1. rewrite com_id_insert_or_replace. unfold delete_antigos.
    rewrite (filter_cons_True _ l []), filter_nil by lia.
    rewrite (filter_cons_True _ l []), filter_nil by done. reflexivity. }
  unfold restaurar_backup. rewrite Hl, Hpath.
  by destruct (restaurar_arquivos (r_caminho dev) destino (fs w1)) as [[[]|e] fs'].
Qed.

(** X27.  [executar_backup] reports failure by exception only: when it
    returns, the dict has [sucesso] true and the id of the attempt; when it
    raises, the exception is a [BackupError] whose text is [Falha no
    backup: ] followed by the text of the cause, and the table holds one
    row of the attempt, the failed one with that cause, whatever the
    retention. *)
Theorem executar_backup_desfecho
    (estrategia : Inteligencia.estrategia) (r : relogio) (w : mundo) :
  match fst (executar estrategia r w) with
  | Py.Ok dev => r_sucesso dev = true ∧ r_id dev = strftime_id (t_id r)
  | Py.Raise e =>
      ∃ causa,
        e = Py.BackupError ("Falha no backup: " +:+ Py.str causa)
        ∧ com_id (strftime_id (t_id r)) (backups (snd (executar estrategia r w))) =
          [linha_falha (strftime_id (t_id r)) r causa]
  end.
Proof.
  unfold executar_backup, try_except.
  destruct (tentar estrategia r _ _ w) as [[dev|e] w1] eqn:Et.
  - cbn [fst]. apply tentar_backup_forma in Et as (l & _ & _ & _ & _ & _ & ? & ?).
    by split.
  - rewrite registrar_falha_run. cbn [fst snd backups]. exists e. split; [done|].
    apply (com_id_insert_or_replace (linha_falha (strftime_id (t_id r)) r e)).
Qed.

Lemma ids_unicos_insert_or_replace (l : linha) (t : list linha) :
  NoDup (map b_id t) → NoDup (map b_id (insert_or_replace l t)).
Proof.
  intros Hnd. unfold insert_or_replace. rewrite map_app. apply NoDup_app.
  split; [|split].
  - eapply sublist_NoDup; [exact Hnd|]. apply fmap_sublist, sublist_filter.
  - intros i Hin Hl. cbn in Hl. apply list_elem_of_singleton in Hl. subst i.
    apply list_elem_of_fmap in Hin as (y & Hy & Hin).
    apply list_elem_of_filter in Hin as [Hne _]. congruence.
  - cbn. apply NoDup_singleton.
Qed.

Lemma ids_unicos_delete_antigos c (t : list linha) :
  NoDup (map b_id t) → NoDup (map b_id (delete_antigos c t)).
Proof.
  intros Hnd. eapply sublist_NoDup; [exact Hnd|].
  apply fmap_sublist, sublist_filter.
Qed.

(** X28.  The [backups] table keeps its primary key through a backup:
    if no two rows share an id before a call of [executar_backup], none do
    after it, whether the call returns or raises and whatever the sweep
    deletes. *)
Theorem executar_backup_mantem_ids_unicos
    (estrategia : Inteligencia.estrategia) (r : relogio) (w : mundo) :
  NoDup (map b_id (backups w)) →
  NoDup (map b_id (backups (snd (executar estrategia r w)))).
Proof.
  intros Hnd. unfold executar_backup, try_except.
  destruct (tentar estrategia r _ _ w) as [[dev|e] w1] eqn:Et;
    apply tentar_backup_forma in Et.
  - destruct Et as (l & Hb & _). cbn [snd]. rewrite Hb.
    by apply ids_unicos_delete_antigos, ids_unicos_insert_or_replace.
  - rewrite registrar_falha_run. cbn [snd backups].
    apply ids_unicos_insert_or_replace.
    destruct Et as [Hb|(l & _ & Hb)]; rewrite Hb; [done|].
    by apply ids_unicos_insert_or_replace.
Qed.


(** X30.  The retention sweep is idempotent: a sweep that has succeeded
    leaves a state on which a second sweep at the same instant succeeds
    too and changes nothing, neither a row nor a file. *)
Theorem limpeza_idempotente (agora : Z) (w w1 : mundo) :
  _limpar_backups_antigos cfg agora w = (Py.Ok tt, w1) →
  _limpar_backups_antigos cfg agora w1 = (Py.Ok tt, w1).
Proof.
  intros H. apply limpar_ok_backups in H.
  unfold _limpar_backups_antigos, bind.
  assert (Hd : delete_antigos (cutoff cfg agora) (backups w1) = backups w1).
  { rewrite H. unfold delete_antigos. rewrite list_filter_filter.
    apply list_filter_iff. intros x. split; [by intros [? _]|by intros ?]. }
  assert (Hp : paths_antigos (cutoff cfg agora) (backups w1) = []).
  { rewrite H. unfold paths_antigos, delete_antigos. clear H.
    induction (backups w) as [|x t IH]; [done|].
    destruct (decide (b_timestamp x < cutoff cfg agora)) as [Hx|Hx].
    - rewrite (filter_cons_False _ x t) by (intros Hn; exact (Hn Hx)). exact IH.
    - rewrite (filter_cons_True _ x t) by exact Hx.
      rewrite filter_cons_False by (intros [Hn _]; exact (Hx Hn)). exact IH. }
  rewrite Hp. cbn [remover_artefatos]. unfold ret, com_backups.
  rewrite Hd. by destruct w1.
Qed.

End MaisRestauro.

Lemma restaurar_sem_registro_com_sucesso_witness :
  Restauracao.restaurar_backup Amostras.restauro_simples
    "20240101_030000" "/tmp/restauro" (Py.dias 33) Exemplos.mundo_so_falha =
  (Py.Raise (Py.BackupError "Backup 20240101_030000 não encontrado"),
   Exemplos.mundo_so_falha).
Proof.
  apply (restaurar_sem_registro_com_sucesso Amostras.restauro_simples
           "20240101_030000" "/tmp/restauro" (Py.dias 33) Exemplos.mundo_so_falha).
  intros r Hin _. unfold Exemplos.mundo_so_falha in Hin. cbn [Backup.backups] in Hin.
  apply list_elem_of_singleton in Hin. subst r. reflexivity.
Defined.

Lemma restaurar_apos_executar_witness :
  ∃ dev w1,
    Exemplos.executa (100 * Exemplos.MiB) = (Py.Ok dev, w1)
    ∧ fst (Restauracao.restaurar_backup Amostras.restauro_simples
             (Backup.r_id dev) "/tmp/restauro" (Py.dias 33) w1) =
      Py.Ok {| Restauracao.rs_sucesso := true;
               Restauracao.rs_backup_id := "20240201_020000";
               Restauracao.rs_destino := "/tmp/restauro";
               Restauracao.rs_timestamp := Py.dias 33 |}.
Proof.
  destruct (Exemplos.executa (100 * Exemplos.MiB)) as [[dev|e] w1] eqn:E;
    [|vm_compute in E; discriminate E].
  exists dev, w1. split; [reflexivity|].
  assert (Hid : Backup.r_id dev = "20240201_020000").
  { assert (Hfst : fst (Exemplos.executa (100 * Exemplos.MiB)) = Py.Ok dev)
      by (rewrite E; reflexivity).
    vm_compute in Hfst. injection Hfst as <-. reflexivity. }
  unfold Exemplos.executa in E.
  rewrite (restaurar_apos_executar config_padrao Exemplos.id_fixo
             Exemplos.alvos_fixos Exemplos.dez_MiB
             (Exemplos.livre_fixo (100 * Exemplos.MiB))
             Exemplos.copia_simples Exemplos.zip_simples Amostras.restauro_simples
             Exemplos.estrategia_incremental Exemplos.relogio_32_dias
             Exemplos.mundo_antigo w1 dev "/tmp/restauro" (Py.dias 33) E).
  - cbn [fst Amostras.restauro_simples]. rewrite Hid. reflexivity.
  - vm_compute. discriminate.
Defined.

Lemma executar_backup_mantem_ids_unicos_witness :
  NoDup (map Tabela.b_id (Backup.backups Exemplos.mundo_antigo))
  ∧ NoDup (map Tabela.b_id
             (Backup.backups (snd (Exemplos.executa (100 * Exemplos.MiB))))).
Proof.
  assert (Hnd : NoDup (map Tabela.b_id (Backup.backups Exemplos.mundo_antigo)))
    by (apply (bool_decide_unpack _); vm_compute; exact I).
  split; [exact Hnd|].
  apply (executar_backup_mantem_ids_unicos config_padrao Exemplos.id_fixo
           Exemplos.alvos_fixos Exemplos.dez_MiB
           (Exemplos.livre_fixo (100 * Exemplos.MiB))
           Exemplos.copia_simples Exemplos.zip_simples
           Exemplos.estrategia_incremental Exemplos.relogio_32_dias
           Exemplos.mundo_antigo Hnd).
Defined.

Lemma limpeza_idempotente_witness :
  ∃ w1,
    Backup._limpar_backups_antigos config_padrao (Py.dias 32) Exemplos.mundo_antigo =
    (Py.Ok tt, w1)
    ∧ Backup._limpar_backups_antigos config_padrao (Py.dias 32) w1 = (Py.Ok tt, w1).
Proof.
  destruct (Backup._limpar_backups_antigos config_padrao (Py.dias 32)
              Exemplos.mundo_antigo) as [[[]|e] w1] eqn:E;
    [|vm_compute in E; discriminate E].
  exists w1. split; [reflexivity|].
  exact (limpeza_idempotente config_padrao (Py.dias 32) Exemplos.mundo_antigo w1 E).
Defined.
